(** * DATAR API: session store and dispatch orchestrator

    A shallow embedding of [API/server.py]: the two module-level
    dictionaries [sessions_store] and [sessions_metadata], the helpers
    [get_or_create_session] and [send_message_to_agent], and the route
    handlers [chat_with_agent], [get_session_history], [delete_session]
    and the seven per-agent endpoints.

    Python values are modelled as follows.
    - [str] is the list of its Unicode code points, so that [len], slicing
      and [strip] count characters the way Python does.
    - [int] is [Z].
    - a [dict] keyed by strings is a [gmap str _].
    - an exception is a value of [exn]; a computation returns an [outcome]
      together with the machine state it leaves behind (Python does not
      roll back mutations when an exception propagates).
    - the Google ADK runner, the clock and the UUID generator are external:
      they are functions over an abstract world [W], bundled in [Runtime].

    Handlers are run one at a time, each to its end.  The [print] calls,
    the constant endpoints ([/], [/health]) and the static files are left
    out. *)

From Stdlib Require Import ZArith Ascii String DecimalString.
From stdpp Require Import gmap list fin_maps.

Open Scope Z_scope.

(** ** Python strings *)

Abbreviation str := (list N).

(** A literal whose characters are all below U+0100. *)
Definition lit (s : string) : str :=
  (λ a, N_of_ascii a) <$> list_ascii_of_string s.

Arguments lit _ : simpl never.

(** [str(n)] for an [int]. *)
Definition str_of_int (n : Z) : str :=
  lit (NilZero.string_of_int (Z.to_int n)).

Arguments str_of_int _ : simpl never.

(** Truth value of a string: [bool(s)]. *)
Definition truthy (s : str) : bool :=
  match s with [] => false | _ => true end.

(** [len(s)] *)
Definition len (s : str) : Z := Z.of_nat (length s).

(** [s[:n]], with Python's reading of a negative bound. *)
Definition slice_to (n : Z) (s : str) : str :=
  if n <? 0 then take (Z.to_nat (len s + n)) s else take (Z.to_nat n) s.

(** [c.isspace()] for one code point, the set used by [str.strip()]. *)
Definition isspace (c : N) : bool :=
  ((9 <=? c) && (c <=? 13) || (28 <=? c) && (c <=? 32)
   || (c =? 133) || (c =? 160) || (c =? 5760)
   || (8192 <=? c) && (c <=? 8202)
   || (c =? 8232) || (c =? 8233) || (c =? 8239) || (c =? 8287)
   || (c =? 12288))%N.

Fixpoint lstrip (s : str) : str :=
  match s with
  | [] => []
  | c :: s' => if isspace c then lstrip s' else s
  end.

Definition rstrip (s : str) : str := reverse (lstrip (reverse s)).

(** [s.strip()] *)
Definition strip (s : str) : str := lstrip (rstrip s).

(** ** Exceptions *)

Inductive exn : Type :=
| AdkError (msg : str)        (* anything raised inside the ADK *)
| TypeError (msg : str)
| KeyError (key : str)
| ValueError (msg : str)
| RuntimeError (msg : str)
| HTTPException (status_code : Z) (detail : str).

(** [str(e)] *)
Definition str_of_exn (e : exn) : str :=
  match e with
  | AdkError m | TypeError m | ValueError m | RuntimeError m => m
  | KeyError k => lit "'" ++ k ++ lit "'"
  | HTTPException c d => str_of_int c ++ lit ": " ++ d
  end.

Inductive outcome (A : Type) : Type :=
| Ok (a : A)
| Raise (e : exn).
Arguments Ok {A} a.
Arguments Raise {A} e.

(** ** google.genai and ADK values *)

(** [google.genai.types.Part]: [text] is an [Optional[str]]. *)
Record Part := { text : option str }.

(** [google.genai.types.Content]: [parts] is an [Optional[list[Part]]]. *)
Record Content := { parts : option (list Part); role : str }.

(** An ADK event: [content] is an [Optional[Content]].  The fields are
    declared by the types, so [hasattr(event, 'content')] holds, and
    [hasattr(event.content, 'parts')] fails exactly when the content is
    [None]. *)
Record Event := { content : option Content }.

(** What iterating [runner.run(...)] does: the events it yields, then
    either the end of the generator or an exception. *)
Record RunOutcome := { emitted : list Event; fault : option exn }.

(** The ADK session object held in [sessions_store]. *)
Module Session.
Record t := { id : str; user_id : str }.
End Session.

(** One turn of a history object; a field is [None] when the attribute
    is missing or falsy. *)
Record Turn := { user_message : option Content; model_message : option Content }.

(** The object returned by [get_history]; [turns] is [None] when the
    object has no such attribute. *)
Record History := { turns : option (list Turn) }.

(** The arguments of one call [runner.run(user_id=, session_id=, new_message=)]. *)
Record RunCall := { call_user_id : str; call_session_id : str; new_message : Content }.

(** ** Registry and configuration

    [AGENTS_METADATA] and [root_agent] come from [DATAR.datar], the two
    bounds from [config]; they are taken as parameters. *)

(** An entry of [AGENTS_METADATA]: a dictionary with at least ['nombre'],
    ['descripcion'] and ['color'] (so it is truthy), and maybe ['emoji']. *)
Record AgentMeta := {
  nombre : str;
  descripcion : str;
  color : str;
  emoji : option str
}.

Record Config := {
  root_agent_name : str;
  AGENTS_METADATA : gmap str AgentMeta;
  MAX_MESSAGE_LENGTH : Z;
  MAX_RESPONSE_LENGTH : Z;
  runner_app_name : str
}.

(** ** Pydantic models *)

Module ChatRequest.
Record t := { message : str; session_id : option str; agent_id : option str }.
End ChatRequest.

Module ChatResponse.
Record t := { response : str; agent_name : str; session_id : str; timestamp : str }.
End ChatResponse.

Module SimpleMessageRequest.
Record t := { message : str }.
End SimpleMessageRequest.

Module AgentResponse.
Record t := { response : str; agent_name : str; agent_id : str }.
End AgentResponse.

(** One entry of [SessionHistoryResponse.messages]. *)
Record HistoryMessage := { msg_role : str; msg_content : option str; msg_timestamp : str }.

Module SessionHistoryResponse.
Record t := {
  session_id : str;
  messages : list HistoryMessage;
  created_at : str;
  message_count : Z
}.
End SessionHistoryResponse.

(** A value of [sessions_metadata]. *)
Module Metadata.
Record t := { created_at : str; last_activity : str; message_count : Z }.
Definition touch (now : str) (md : t) : t :=
  {| created_at := created_at md; last_activity := now;
     message_count := message_count md |}.
Definition bump (md : t) : t :=
  {| created_at := created_at md; last_activity := last_activity md;
     message_count := message_count md + 1 |}.
End Metadata.

(** ** The external world *)

Record Runtime (W : Type) := {
  (* datetime.now().isoformat() *)
  now : W → str * W;
  (* str(uuid.uuid4()) *)
  uuid4 : W → str * W;
  (* runner.session_service.create_session(app_name=, user_id=) *)
  create_session : str → str → W → outcome Session.t * W;
  (* runner.run(user_id=, session_id=, new_message=), iterated *)
  run : str → str → Content → W → RunOutcome * W;
  (* runner.session_service.get_history(user_id=, session_id=);
     [None] is a falsy history *)
  get_history : str → str → W → outcome (option History) * W
}.
Arguments now {W} _ _.
Arguments uuid4 {W} _ _.
Arguments create_session {W} _ _ _ _.
Arguments run {W} _ _ _ _ _.
Arguments get_history {W} _ _ _ _.

(** ** The server *)

Section Server.
Context {W : Type}.
Variable rt : Runtime W.
Variable cfg : Config.

(** Module state of [server.py], the external world, and the calls made
    to [runner.run] so far (kept to state what is forwarded). *)
Record Machine := {
  sessions_store : gmap str Session.t;
  sessions_metadata : gmap str Metadata.t;
  world : W;
  runner_calls : list RunCall
}.

Definition M (A : Type) : Type := Machine → outcome A * Machine.

#[global] Instance M_ret : MRet M := λ A a m, (Ok a, m).
#[global] Instance M_bind : MBind M := λ A B f c m,
  match c m with
  | (Ok a, m') => f a m'
  | (Raise e, m') => (Raise e, m')
  end.

Definition raise {A} (e : exn) : M A := λ m, (Raise e, m).

(** [try: c except Exception as e: h e] *)
Definition try_except {A} (c : M A) (h : exn → M A) : M A := λ m,
  match c m with
  | (Ok a, m') => (Ok a, m')
  | (Raise e, m') => h e m'
  end.

Definition gets {A} (f : Machine → A) : M A := λ m, (Ok (f m), m).

Definition set_store (f : gmap str Session.t → gmap str Session.t) : M () := λ m,
  (Ok (), {| sessions_store := f (sessions_store m);
             sessions_metadata := sessions_metadata m;
             world := world m; runner_calls := runner_calls m |}).

Definition set_metadata (f : gmap str Metadata.t → gmap str Metadata.t) : M () := λ m,
  (Ok (), {| sessions_store := sessions_store m;
             sessions_metadata := f (sessions_metadata m);
             world := world m; runner_calls := runner_calls m |}).

Definition with_world (w : W) (m : Machine) : Machine :=
  {| sessions_store := sessions_store m; sessions_metadata := sessions_metadata m;
     world := w; runner_calls := runner_calls m |}.

(** An external call that cannot fail. *)
Definition ask {A} (f : W → A * W) : M A := λ m,
  let '(a, w) := f (world m) in (Ok a, with_world w m).

(** An external call that may raise. *)
Definition call {A} (f : W → outcome A * W) : M A := λ m,
  let '(r, w) := f (world m) in (r, with_world w m).

(** [runner.run(...)]: the call is recorded, then handed to the ADK. *)
Definition runner_run (user_id session_id : str) (new_message : Content)
  : M RunOutcome := λ m,
  let '(o, w) := run rt user_id session_id new_message (world m) in
  (Ok o, {| sessions_store := sessions_store m;
            sessions_metadata := sessions_metadata m;
            world := w;
            runner_calls := runner_calls m ++
              [ {| call_user_id := user_id; call_session_id := session_id;
                   new_message := new_message |} ] |}).

(** *** [get_or_create_session] *)

Definition get_or_create_session (session_id : str) : M Session.t :=
  store ← gets sessions_store;
  (match store !! session_id with
   | None =>
       try_except
         (session ← call (create_session rt (runner_app_name cfg) (lit "default_user"));
          set_store (<[session_id := session]>);;
          created ← ask (now rt);
          activity ← ask (now rt);
          set_metadata (<[session_id :=
            {| Metadata.created_at := created;
               Metadata.last_activity := activity;
               Metadata.message_count := 0 |}]>))
         (λ e, raise (RuntimeError
                 (lit "Error al crear sesi" ++ [243%N] ++ lit "n: " ++ str_of_exn e)))
   | Some _ => mret ()
   end);;
  metadata ← gets sessions_metadata;
  (match metadata !! session_id with
   | Some _ =>
       t ← ask (now rt);
       set_metadata (alter (Metadata.touch t) session_id)
   | None => mret ()
   end);;
  store ← gets sessions_store;
  match store !! session_id with
  | Some session => mret session
  | None => raise (KeyError session_id)
  end.

(** *** [send_message_to_agent] *)

(** The local [mensaje_completo]: the message, prefixed when [agent_id]
    is truthy and found in [AGENTS_METADATA]. *)
Definition mensaje_completo (message : str) (agent_id : option str) : str :=
  match agent_id with
  | Some a =>
      if truthy a then
        match AGENTS_METADATA cfg !! a with
        | Some agent_meta =>
            lit "[Dirigido a " ++ nombre agent_meta ++ lit "]: " ++ message
        | None => message
        end
      else message
  | None => message
  end.

(** The inner loop over [event.content.parts]. *)
Fixpoint collect_parts (ps : list Part) (respuesta_texto : str) : str :=
  match ps with
  | [] => respuesta_texto
  | part :: ps' =>
      collect_parts ps'
        (match text part with
         | Some t => if truthy t then respuesta_texto ++ t else respuesta_texto
         | None => respuesta_texto
         end)
  end.

(** The loop over the events; iterating [parts] when it is [None]
    raises a [TypeError]. *)
Fixpoint collect_events (evs : list Event) (respuesta_texto : str) : outcome str :=
  match evs with
  | [] => Ok respuesta_texto
  | event :: evs' =>
      match content event with
      | None => collect_events evs' respuesta_texto
      | Some c =>
          match parts c with
          | None => Raise (TypeError (lit "'NoneType' object is not iterable"))
          | Some ps => collect_events evs' (collect_parts ps respuesta_texto)
          end
      end
  end.

(** The whole [for event in runner.run(...)] statement. *)
Definition consume (o : RunOutcome) : outcome str :=
  match collect_events (emitted o) [] with
  | Raise e => Raise e
  | Ok respuesta_texto =>
      match fault o with
      | Some e => Raise e
      | None => Ok respuesta_texto
      end
  end.

Definition fallback : str :=
  lit "[" ++ root_agent_name cfg ++ lit "] proces" ++ [243%N] ++
  lit " tu mensaje, pero no gener" ++ [243%N] ++ lit " una respuesta de texto.".

(** The last two statements: the default message when there is no text,
    then [return respuesta_texto.strip()]. *)
Definition respuesta_final (respuesta_texto : str) : str :=
  let respuesta_texto :=
    if negb (truthy respuesta_texto) || negb (truthy (strip respuesta_texto))
    then fallback else respuesta_texto in
  strip respuesta_texto.

Definition lift {A} (r : outcome A) : M A := λ m, (r, m).

Definition send_message_to_agent
    (session_id message : str) (agent_id : option str) : M str :=
  session ← get_or_create_session session_id;
  let content := {| parts := Some [ {| text := Some (mensaje_completo message agent_id) |} ];
                    role := lit "user" |} in
  respuesta_texto ←
    try_except
      (o ← runner_run (Session.user_id session) (Session.id session) content;
       lift (consume o))
      (λ e, raise (RuntimeError
              (lit "Error al ejecutar el agente: " ++ str_of_exn e)));
  metadata ← gets sessions_metadata;
  (match metadata !! session_id with
   | Some _ =>
       set_metadata (alter Metadata.bump session_id);;
       t ← ask (now rt);
       set_metadata (alter (Metadata.touch t) session_id)
   | None => mret ()
   end);;
  mret (respuesta_final respuesta_texto).

(** *** [POST /api/chat] *)

(** [request.session_id or str(uuid.uuid4())] *)
Definition resolve_session_id (session_id : option str) : M str :=
  match session_id with
  | Some s => if truthy s then mret s else ask (uuid4 rt)
  | None => ask (uuid4 rt)
  end.

Definition chat_with_agent (request : ChatRequest.t) : M ChatResponse.t :=
  let message := ChatRequest.message request in
  if negb (truthy message) || negb (truthy (strip message)) then
    raise (HTTPException 400
             (lit "El mensaje no puede estar vac" ++ [237%N] ++ lit "o"))
  else if MAX_MESSAGE_LENGTH cfg <? len message then
    raise (HTTPException 400
             (lit "El mensaje no puede exceder " ++
              str_of_int (MAX_MESSAGE_LENGTH cfg) ++ lit " caracteres"))
  else
    session_id ← resolve_session_id (ChatRequest.session_id request);
    timestamp ← ask (now rt);
    try_except
      (response_text ←
         send_message_to_agent session_id message (ChatRequest.agent_id request);
       if negb (truthy response_text) then
         raise (ValueError (lit "La respuesta del agente lleg" ++ [243%N] ++
                            lit " vac" ++ [237%N] ++ lit "a."))
       else
         let response_text := slice_to (MAX_RESPONSE_LENGTH cfg) response_text in
         let agent_name :=
           match ChatRequest.agent_id request with
           | Some a =>
               if truthy a then
                 match AGENTS_METADATA cfg !! a with
                 | Some agent_meta => nombre agent_meta
                 | None => root_agent_name cfg
                 end
               else root_agent_name cfg
           | None => root_agent_name cfg
           end in
         stamp ← ask (now rt);
         mret {| ChatResponse.response := response_text;
                 ChatResponse.agent_name := agent_name;
                 ChatResponse.session_id := session_id;
                 ChatResponse.timestamp := stamp |})
      (λ e, raise (HTTPException 500
                     (lit "Error al generar respuesta: " ++ str_of_exn e))).

(** *** [GET /api/sessions/{session_id}] *)

Definition empty_history (session_id : str) : SessionHistoryResponse.t :=
  {| SessionHistoryResponse.session_id := session_id;
     SessionHistoryResponse.messages := [];
     SessionHistoryResponse.created_at := [];
     SessionHistoryResponse.message_count := 0 |}.

(** [c.parts[0].text if c.parts else ""] *)
Definition first_text (c : Content) : option str :=
  match parts c with
  | Some (p :: _) => text p
  | _ => Some []
  end.

(** The body of the loop over [history.turns], for one turn. *)
Definition turn_messages (last_activity : str) (turn : Turn) : list HistoryMessage :=
  match user_message turn with
  | Some c => [ {| msg_role := lit "user"; msg_content := first_text c;
                   msg_timestamp := last_activity |} ]
  | None => []
  end ++
  match model_message turn with
  | Some c => [ {| msg_role := lit "assistant"; msg_content := first_text c;
                   msg_timestamp := last_activity |} ]
  | None => []
  end.

Definition history_messages (history : option History) (last_activity : str)
  : list HistoryMessage :=
  match history with
  | Some h =>
      match turns h with
      | Some ts => flat_map (turn_messages last_activity) ts
      | None => []
      end
  | None => []
  end.

Definition get_session_history (session_id : str) : M SessionHistoryResponse.t :=
  store ← gets sessions_store;
  match store !! session_id with
  | None => mret (empty_history session_id)
  | Some session =>
      try_except
        ((* sessions_metadata.get(session_id, {}) *)
         metadata ← gets (λ m, sessions_metadata m !! session_id);
         history ← call (get_history rt (Session.user_id session) (Session.id session));
         let messages :=
           history_messages history
             (from_option Metadata.last_activity [] metadata) in
         mret {| SessionHistoryResponse.session_id := session_id;
                 SessionHistoryResponse.messages := messages;
                 SessionHistoryResponse.created_at :=
                   from_option Metadata.created_at [] metadata;
                 SessionHistoryResponse.message_count :=
                   Z.of_nat (length messages) |})
        (λ e, mret (empty_history session_id))
  end.

(** *** [DELETE /api/sessions/{session_id}]; the result is the
    ["message"] of the returned object. *)

Definition delete_session (session_id : str) : M str :=
  store ← gets sessions_store;
  deleted ← match store !! session_id with
             | Some _ => set_store (delete session_id);; mret true
             | None => mret false
             end;
  metadata ← gets sessions_metadata;
  deleted ← match metadata !! session_id with
             | Some _ => set_metadata (delete session_id);; mret true
             | None => mret deleted
             end;
  mret (lit "Sesi" ++ [243%N] ++ lit "n " ++ session_id ++
        (if deleted : bool then lit " eliminada exitosamente"
         else lit " no encontrada")).

(** *** The per-agent endpoints

    The seven handlers have the same body and differ in [agent_id]. *)

Definition agent_endpoint (agent_id : str) (request : SimpleMessageRequest.t)
  : M AgentResponse.t :=
  session_id ← ask (uuid4 rt);
  try_except
    (response_text ←
       send_message_to_agent session_id (SimpleMessageRequest.message request)
         (Some agent_id);
     (* AGENTS_METADATA[agent_id]["nombre"] *)
     match AGENTS_METADATA cfg !! agent_id with
     | Some agent_meta =>
         mret {| AgentResponse.response := response_text;
                 AgentResponse.agent_name := nombre agent_meta;
                 AgentResponse.agent_id := agent_id |}
     | None => raise (KeyError agent_id)
     end)
    (λ e, raise (HTTPException 500 (lit "Error: " ++ str_of_exn e))).

Definition chat_gente_montana := agent_endpoint (lit "gente_montana").
Definition chat_gente_pasto := agent_endpoint (lit "gente_pasto").
Definition chat_gente_intuitiva := agent_endpoint (lit "gente_intuitiva").
Definition chat_gente_interpretativa := agent_endpoint (lit "gente_interpretativa").
Definition chat_gente_bosque := agent_endpoint (lit "gente_bosque").
Definition chat_gente_sonora := agent_endpoint (lit "gente_sonora").
Definition chat_gente_horaculo := agent_endpoint (lit "gente_horaculo").

(** *** Reachable states *)

Inductive Request : Type :=
| POST_chat (request : ChatRequest.t)
| POST_chat_gente_montana (request : SimpleMessageRequest.t)
| POST_chat_gente_pasto (request : SimpleMessageRequest.t)
| POST_chat_gente_intuitiva (request : SimpleMessageRequest.t)
| POST_chat_gente_interpretativa (request : SimpleMessageRequest.t)
| POST_chat_gente_bosque (request : SimpleMessageRequest.t)
| POST_chat_gente_sonora (request : SimpleMessageRequest.t)
| POST_chat_gente_horaculo (request : SimpleMessageRequest.t)
| GET_session (session_id : str)
| DELETE_session (session_id : str).

(** The state a handler leaves behind, whether it returns or raises. *)
Definition serve (r : Request) (m : Machine) : Machine :=
  match r with
  | POST_chat q => (chat_with_agent q m).2
  | POST_chat_gente_montana q => (chat_gente_montana q m).2
  | POST_chat_gente_pasto q => (chat_gente_pasto q m).2
  | POST_chat_gente_intuitiva q => (chat_gente_intuitiva q m).2
  | POST_chat_gente_interpretativa q => (chat_gente_interpretativa q m).2
  | POST_chat_gente_bosque q => (chat_gente_bosque q m).2
  | POST_chat_gente_sonora q => (chat_gente_sonora q m).2
  | POST_chat_gente_horaculo q => (chat_gente_horaculo q m).2
  | GET_session sid => (get_session_history sid m).2
  | DELETE_session sid => (delete_session sid m).2
  end.

(** The server starts with both dictionaries empty. *)
Definition startup (w : W) : Machine :=
  {| sessions_store := ∅; sessions_metadata := ∅; world := w; runner_calls := [] |}.

Inductive reachable : Machine → Prop :=
| reachable_startup w : reachable (startup w)
| reachable_serve r m : reachable m → reachable (serve r m).

End Server.

(** ** A scripted world

    A small instance of [Runtime] on which the handlers can be run: a
    counter drives the clock and the identifiers, and fixed answers stand
    for the ADK. *)

Record Script := {
  ticks : Z;
  adk_up : bool;
  replies : list RunOutcome;
  past : outcome (option History)
}.

Definition tick (w : Script) : Script :=
  {| ticks := ticks w + 1; adk_up := adk_up w; replies := replies w; past := past w |}.

(** Each run takes the next scripted reply; past the end, a run yields
    nothing. *)
Definition next_reply (w : Script) : RunOutcome * Script :=
  match replies w with
  | o :: rest =>
      (o, {| ticks := ticks w + 1; adk_up := adk_up w; replies := rest; past := past w |})
  | [] => ({| emitted := []; fault := None |}, tick w)
  end.

Definition scripted : Runtime Script := {|
  now w := (lit "T" ++ str_of_int (ticks w), tick w);
  uuid4 w := (lit "uuid-" ++ str_of_int (ticks w), tick w);
  create_session app user w :=
    (if adk_up w
     then Ok {| Session.id := lit "adk-" ++ str_of_int (ticks w); Session.user_id := user |}
     else Raise (AdkError (lit "unavailable")),
     tick w);
  run user session new_message w := next_reply w;
  get_history user session w := (past w, tick w)
|}.

Definition demo_agents : gmap str AgentMeta :=
  {[ lit "gente_pasto" :=
       {| nombre := lit "Gente Pasto"; descripcion := lit "Especialista en pastos";
          color := lit "#4CAF50"; emoji := None |} ]}.

(** The two bounds are small so that the examples stay short. *)
Definition demo_cfg : Config := {|
  root_agent_name := lit "root_agent";
  AGENTS_METADATA := demo_agents;
  MAX_MESSAGE_LENGTH := 8;
  MAX_RESPONSE_LENGTH := 4;
  runner_app_name := lit "datar"
|}.

(** An event carrying one text part. *)
Definition says (t : string) : Event :=
  {| content := Some {| parts := Some [ {| text := Some (lit t) |} ]; role := lit "model" |} |}.

Definition script (rs : list RunOutcome) (h : outcome (option History)) : Script :=
  {| ticks := 0; adk_up := true; replies := rs; past := h |}.

Definition yields (evs : list Event) : RunOutcome := {| emitted := evs; fault := None |}.

Definition breaks (evs : list Event) : RunOutcome :=
  {| emitted := evs; fault := Some (AdkError (lit "boom")) |}.

Definition no_history : outcome (option History) := Raise (AdkError (lit "no history")).

Definition chat (message : string) (session_id agent_id : option string) : ChatRequest.t :=
  {| ChatRequest.message := lit message;
     ChatRequest.session_id := lit <$> session_id;
     ChatRequest.agent_id := lit <$> agent_id |}.

(** A conversation opened by one message on session ["s1"]; [h] is what
    the ADK will answer when asked for the history. *)
Definition after_hola (h : outcome (option History)) : @Machine Script :=
  serve scripted demo_cfg (POST_chat (chat "hola" (Some "s1"%string) None))
    (startup (script [yields [says "buenas"]; breaks [says "ta"]] h)).

Definition one_message : @Machine Script := after_hola no_history.

(** A history of one turn: the user's message and the model's answer. *)
Definition one_turn : History :=
  {| turns := Some
       [ {| user_message :=
              Some {| parts := Some [ {| text := Some (lit "hola") |} ]; role := lit "user" |};
            model_message :=
              Some {| parts := Some [ {| text := Some (lit "buenas") |} ]; role := lit "model" |} |} ] |}.

(** A machine that has served nothing yet and whose next run answers
    ["buenas tardes"]. *)
Definition fresh : @Machine Script :=
  startup (script [yields [says "buenas "; says "tardes"]] no_history).

(** ** Notions used in the statements *)

(** A message made of whitespace only (the empty one included). *)
Definition blank (s : str) : Prop := Forall (λ c, isspace c = true) s.

(** The text fragments of a sequence of events, in emission order. *)
Definition text_fragments (evs : list Event) : list str :=
  flat_map (λ event,
    match content event with
    | Some c => from_option (omap text) [] (parts c)
    | None => []
    end) evs.

(** [parts] of the event's content can be iterated. *)
Definition iterable (event : Event) : bool :=
  match content event with
  | Some c => bool_decide (is_Some (parts c))
  | None => true
  end.

(** The run reaches the end of the generator: nothing is raised by the
    capability and every event can be read. *)
Definition completes (o : RunOutcome) : Prop :=
  fault o = None ∧ forallb iterable (emitted o) = true.

(** Every session id has a handle exactly when it has a metadata record. *)
Definition paired {W} (m : @Machine W) : Prop :=
  ∀ sid, is_Some (sessions_store m !! sid) ↔ is_Some (sessions_metadata m !! sid).

(** The call [runner.run] receives when [message] is forwarded on behalf
    of [session]. *)
Definition forwards (session : Session.t) (message : str) : RunCall :=
  {| call_user_id := Session.user_id session;
     call_session_id := Session.id session;
     new_message := {| parts := Some [ {| text := Some message |} ]; role := lit "user" |} |}.

(** The per-agent endpoints, each with the [agent_id] it fixes. *)
Definition agent_endpoints {W} (rt : Runtime W) (cfg : Config)
  : list (str * (SimpleMessageRequest.t → @M W AgentResponse.t)) :=
  [ (lit "gente_montana", chat_gente_montana rt cfg);
    (lit "gente_pasto", chat_gente_pasto rt cfg);
    (lit "gente_intuitiva", chat_gente_intuitiva rt cfg);
    (lit "gente_interpretativa", chat_gente_interpretativa rt cfg);
    (lit "gente_bosque", chat_gente_bosque rt cfg);
    (lit "gente_sonora", chat_gente_sonora rt cfg);
    (lit "gente_horaculo", chat_gente_horaculo rt cfg) ].

(** What a handler returned, if it returned. *)
Definition returned {A} (r : outcome A) : option A :=
  match r with
  | Ok a => Some a
  | Raise _ => None
  end.

(** A computation that keeps the two dictionaries paired. *)
Definition preserves {W A} (c : @M W A) : Prop :=
  ∀ m, paired m → paired (c m).2.

(** The stored [message_count] of a session, if it has metadata. *)
Definition stored_count {W} (m : @Machine W) (sid : str) : option Z :=
  Metadata.message_count <$> sessions_metadata m !! sid.

(** ** The read-only endpoints

    A [gmap] does not record the order in which keys were inserted, which
    is the order in which Python iterates a dictionary.  Where a handler
    iterates a dictionary, that order is an argument: [keys] stands for
    [list(d.keys())]. *)

(** [keys] lists the keys of [d], each once. *)
Definition key_order {V} (keys : list str) (d : gmap str V) : Prop :=
  NoDup keys ∧ ∀ k, k ∈ keys ↔ is_Some (d !! k).

(** [d.items()] *)
Definition items {V} (keys : list str) (d : gmap str V) : list (str * V) :=
  omap (λ k, (λ v, (k, v)) <$> d !! k) keys.

(** [sep.join(l)] *)
Fixpoint join (sep : str) (l : list str) : str :=
  match l with
  | [] => []
  | [x] => x
  | x :: l' => x ++ sep ++ join sep l'
  end.

(** [s.replace(old, new)] for one-character [old] and [new]. *)
Definition replace_char (old new : N) (s : str) : str :=
  (λ c, if (c =? old)%N then new else c) <$> s.

Module SessionInfo.
Record t := { session_id : str; created_at : str; last_activity : str; message_count : Z }.
End SessionInfo.

Module AgentInfo.
Record t := { id : str; nombre : str; descripcion : str; color : str; emoji : str }.
End AgentInfo.

Module SelectAgentRequest.
Record t := { agent_id : str }.
End SelectAgentRequest.

(** The object returned by [select_agent]. *)
Module SelectedAgent.
Record t := {
  exitoso : bool;
  agente : str;
  agente_id : str;
  descripcion : str;
  mensaje : str;
  color : str;
  emoji : str
}.
End SelectedAgent.

(** The default emoji, U+1F916. *)
Definition robot : str := [129302%N].

Section Listing.
Context {W : Type}.
Variable cfg : Config.

(** [GET /api/agents] *)
Definition list_agents (keys : list str) : list AgentInfo.t :=
  (λ '(agent_id, meta),
     {| AgentInfo.id := replace_char 95 95 agent_id;
        AgentInfo.nombre := nombre meta;
        AgentInfo.descripcion := descripcion meta;
        AgentInfo.color := color meta;
        AgentInfo.emoji := default robot (emoji meta) |})
  <$> items keys (AGENTS_METADATA cfg).

(** [GET /api/sessions] *)
Definition list_sessions (keys : list str) : @M W (list SessionInfo.t) :=
  all ← gets sessions_metadata;
  mret ((λ '(session_id, metadata),
           {| SessionInfo.session_id := session_id;
              SessionInfo.created_at := Metadata.created_at metadata;
              SessionInfo.last_activity := Metadata.last_activity metadata;
              SessionInfo.message_count := Metadata.message_count metadata |})
        <$> items keys all).

(** [POST /api/select-agent] *)
Definition select_agent (keys : list str) (request : SelectAgentRequest.t)
  : outcome SelectedAgent.t :=
  let agent_id := SelectAgentRequest.agent_id request in
  match AGENTS_METADATA cfg !! agent_id with
  | None =>
      Raise (HTTPException 404
               (lit "Agente '" ++ agent_id ++
                lit "' no encontrado. Agentes disponibles: " ++ join (lit ", ") keys))
  | Some agent_meta =>
      let mensaje_bienvenida :=
        [161%N] ++ lit "Hola! Soy " ++ nombre agent_meta ++ lit ". " ++
        descripcion agent_meta ++ lit ". " ++ [191%N] ++ lit "En qu" ++ [233%N] ++
        lit " puedo ayudarte?" in
      Ok {| SelectedAgent.exitoso := true;
            SelectedAgent.agente := nombre agent_meta;
            SelectedAgent.agente_id := agent_id;
            SelectedAgent.descripcion := descripcion agent_meta;
            SelectedAgent.mensaje := mensaje_bienvenida;
            SelectedAgent.color := color agent_meta;
            SelectedAgent.emoji := default robot (emoji agent_meta) |}
  end.

End Listing.

(** ** More notions used in the statements *)

(** The message passes the two checks of [chat_with_agent]. *)
Definition accepted (cfg : Config) (message : str) : Prop :=
  ¬ blank message ∧ len message ≤ MAX_MESSAGE_LENGTH cfg.

(** Two machines hold the same dictionaries and the same log of runs. *)
Definition same_tables {W} (m1 m2 : @Machine W) : Prop :=
  sessions_store m1 = sessions_store m2 ∧
  sessions_metadata m1 = sessions_metadata m2 ∧
  runner_calls m1 = runner_calls m2.

(** No session counts more messages than runs were started. *)
Definition counted {W} (m : @Machine W) : Prop :=
  ∀ sid n, stored_count m sid = Some n → 0 ≤ n ≤ Z.of_nat (length (runner_calls m)).

(** The text of the answer [delete_session] gives. *)
Definition deleted_message (session_id : str) (deleted : bool) : str :=
  lit "Sesi" ++ [243%N] ++ lit "n " ++ session_id ++
  (if deleted then lit " eliminada exitosamente" else lit " no encontrada").

(** A registry with two agents, one of which brings its own emoji. *)
Definition two_agents : gmap str AgentMeta :=
  <[ lit "gente_bosque" :=
       {| nombre := lit "Gente Bosque"; descripcion := lit "Ecosistemas forestales";
          color := lit "#2E7D32"; emoji := Some [127794%N] |} ]> demo_agents.

Definition two_agents_cfg : Config := {|
  root_agent_name := lit "root_agent";
  AGENTS_METADATA := two_agents;
  MAX_MESSAGE_LENGTH := 8;
  MAX_RESPONSE_LENGTH := 4;
  runner_app_name := lit "datar"
|}.

(** A conversation of one message whose next run completes. *)
Definition greeted : @Machine Script :=
  serve scripted demo_cfg (POST_chat (chat "hola" (Some "s1"%string) None))
    (startup (script [yields [says "buenas"]; yields [says "tardes"]] no_history)).

(** A configuration with bounds of a realistic size. *)
Definition roomy_cfg : Config := {|
  root_agent_name := lit "root_agent";
  AGENTS_METADATA := demo_agents;
  MAX_MESSAGE_LENGTH := 2000;
  MAX_RESPONSE_LENGTH := 4096;
  runner_app_name := lit "datar"
|}.

(** A machine that has served nothing yet and whose first run answers
    ["buenas"]. *)
Definition greeted_start : @Machine Script :=
  startup (script [yields [says "buenas"]; yields [says "tardes"]] no_history).

(** * The model on concrete inputs *)

Example strip_both_ends :
  strip ([32; 9]%N ++ lit "hola mundo" ++ [10; 160]%N) = lit "hola mundo".
Proof. reflexivity. Qed.

Example strip_whitespace_only : strip [32; 10; 8195]%N = [].
Proof. reflexivity. Qed.

Example slice_to_short : slice_to 10 (lit "hola") = lit "hola".
Proof. reflexivity. Qed.

Example slice_to_long : slice_to 4 (lit "buenas") = lit "buen".
Proof. reflexivity. Qed.

Example slice_to_negative : slice_to (-2) (lit "buenas") = lit "buen".
Proof. reflexivity. Qed.

Example str_of_int_5000 : str_of_int 5000 = lit "5000".
Proof. reflexivity. Qed.

(** A first message with a hint: a session id is minted, the answer names
    the hinted agent, and the text is cut at [MAX_RESPONSE_LENGTH]. *)
Example chat_with_hint :
  (chat_with_agent scripted demo_cfg (chat "hola" None (Some "gente_pasto"%string)) fresh).1 =
  Ok {| ChatResponse.response := lit "buen";
        ChatResponse.agent_name := lit "Gente Pasto";
        ChatResponse.session_id := lit "uuid-0";
        ChatResponse.timestamp := lit "T8" |}.
Proof. vm_compute. reflexivity. Qed.

(** Two messages on one session: the count is 2 and [created_at] is the
    one of the first message. *)
Example two_messages :
  let m := serve scripted demo_cfg (POST_chat (chat "otra" (Some "s1"%string) None))
             (serve scripted demo_cfg (POST_chat (chat "hola" (Some "s1"%string) None)) fresh) in
  sessions_metadata m !! lit "s1" =
  Some {| Metadata.created_at := lit "T2"; Metadata.last_activity := lit "T11";
          Metadata.message_count := 2 |}.
Proof. vm_compute. reflexivity. Qed.

(** Deleting a session and using its id again starts from a count of 0. *)
Example delete_then_create :
  let m := (get_or_create_session scripted demo_cfg (lit "s1")
              (serve scripted demo_cfg (DELETE_session (lit "s1")) one_message)).2 in
  sessions_metadata m !! lit "s1" =
  Some {| Metadata.created_at := lit "T9"; Metadata.last_activity := lit "T11";
          Metadata.message_count := 0 |}.
Proof. vm_compute. reflexivity. Qed.

(** When the ADK is down no session can be created, and nothing is stored. *)
Example adk_down :
  let w := {| ticks := 0; adk_up := false; replies := []; past := no_history |} in
  let '(r, m) := chat_with_agent scripted demo_cfg (chat "hola" None None) (startup w) in
  r = Raise (HTTPException 500
               (lit "Error al generar respuesta: Error al crear sesi" ++ [243%N] ++
                lit "n: unavailable")) ∧
  sessions_store m = ∅ ∧ sessions_metadata m = ∅.
Proof. vm_compute. repeat split. Qed.

(** * Properties *)

Ltac monad :=
  unfold mbind, mret, M_bind, M_ret, gets, raise, try_except, ask, call, lift,
    set_store, set_metadata, with_world, runner_run in *; simpl in *.

(** Rewrite with the recorded answers of the external world. *)
Ltac oracle :=
  repeat (simpl; match goal with
                 | H : ?f = (_, _) |- context [?f] => rewrite H
                 | H : ?d !! ?k = _ |- context [?d !! ?k] => rewrite H
                 end); simpl.

(** ** Strings *)

Lemma lstrip_split (s : str) : ∃ p, s = p ++ lstrip s ∧ blank p.
Proof.
  induction s as [|c s [p [Hs Hp]]]; simpl.
  - exists []. split; [done | constructor].
  - destruct (isspace c) eqn:Hc.
    + exists (c :: p). split; [simpl; congruence | by constructor].
    + exists []. split; [done | constructor].
Qed.

Lemma lstrip_head (s : str) c s' : lstrip s = c :: s' → isspace c = false.
Proof.
  induction s as [|d s IH]; simpl; [done |].
  destruct (isspace d) eqn:Hd; [done |]. intros [= <- _]. done.
Qed.

Lemma lstrip_blank (s : str) : blank s → lstrip s = [].
Proof. induction 1 as [|c s Hc _ IH]; simpl; [done |]. by rewrite Hc. Qed.

Lemma lstrip_nil_blank (s : str) : lstrip s = [] → blank s.
Proof.
  intros H. destruct (lstrip_split s) as [p [Hs Hp]].
  rewrite H, app_nil_r in Hs. by subst.
Qed.

Lemma lstrip_fixed (s : str) c s' : s = c :: s' → isspace c = false → lstrip s = s.
Proof. intros -> Hc. simpl. by rewrite Hc. Qed.

Lemma blank_reverse (s : str) : blank s → blank (reverse s).
Proof. unfold blank. rewrite !Forall_forall. intros H c Hc. apply H. by apply elem_of_reverse. Qed.

Lemma rstrip_split (s : str) : ∃ q, s = rstrip s ++ q ∧ blank q.
Proof.
  unfold rstrip. destruct (lstrip_split (reverse s)) as [p [Hs Hp]].
  exists (reverse p). split; [| by apply blank_reverse].
  rewrite <- reverse_app, <- Hs. by rewrite reverse_involutive.
Qed.

Lemma rstrip_last (s : str) c : last (rstrip s) = Some c → isspace c = false.
Proof.
  unfold rstrip. rewrite last_reverse.
  destruct (lstrip (reverse s)) as [|d r] eqn:Hr; simpl; [done |].
  intros [= <-]. by eapply lstrip_head.
Qed.

(** The stripped text sits between two runs of whitespace. *)
Lemma strip_split (s : str) : ∃ p q, s = p ++ strip s ++ q ∧ blank p ∧ blank q.
Proof.
  destruct (rstrip_split s) as [q [Hs Hq]].
  destruct (lstrip_split (rstrip s)) as [p [Hr Hp]].
  exists p, q. split; [| done]. unfold strip.
  rewrite (assoc_L (++)), <- Hr. done.
Qed.

Lemma strip_head (s : str) c s' : strip s = c :: s' → isspace c = false.
Proof. apply lstrip_head. Qed.

Lemma strip_last (s : str) c : last (strip s) = Some c → isspace c = false.
Proof.
  intros H. apply (rstrip_last s).
  destruct (lstrip_split (rstrip s)) as [p [Hr _]]. fold (strip s) in Hr.
  rewrite Hr. destruct (strip s) as [|d r] eqn:E; [done |].
  rewrite last_app. by rewrite H.
Qed.

Lemma strip_blank (s : str) : blank s → strip s = [].
Proof.
  intros H. unfold strip, rstrip.
  rewrite (lstrip_blank (reverse s)) by by apply blank_reverse. done.
Qed.

Lemma strip_nil_blank (s : str) : strip s = [] → blank s.
Proof.
  intros H. destruct (strip_split s) as (p & q & Hs & Hp & Hq).
  rewrite H in Hs. subst s. simpl. by apply Forall_app.
Qed.

(** A text that neither starts nor ends with whitespace is left alone. *)
Lemma strip_fixed (s : str) c s' d :
  s = c :: s' → isspace c = false → last s = Some d → isspace d = false →
  strip s = s.
Proof.
  intros Hs Hc Hl Hd. unfold strip.
  assert (rstrip s = s) as ->; [| by eapply lstrip_fixed].
  unfold rstrip. rewrite <- (reverse_involutive s) in Hl.
  rewrite last_reverse in Hl.
  destruct (reverse s) as [|e r] eqn:E; [done |]. simpl in Hl.
  injection Hl as ->. simpl. rewrite Hd.
  rewrite <- E. apply reverse_involutive.
Qed.

Lemma truthy_nil (s : str) : truthy s = false ↔ s = [].
Proof. by destruct s. Qed.

Lemma truthy_cons (s : str) : truthy s = true ↔ s ≠ [].
Proof. by destruct s. Qed.

(** ** The default message *)

Lemma fallback_shape cfg :
  ∃ body, fallback cfg = 91%N :: body ∧ last (fallback cfg) = Some 46%N.
Proof.
  unfold fallback. eexists. split; [reflexivity |].
  rewrite !(assoc_L (++)). rewrite last_app. reflexivity.
Qed.

Lemma strip_fallback cfg : strip (fallback cfg) = fallback cfg.
Proof.
  destruct (fallback_shape cfg) as (body & Hb & Hl).
  by eapply strip_fixed.
Qed.

Lemma fallback_nonempty cfg : fallback cfg ≠ [].
Proof. destruct (fallback_shape cfg) as (body & Hb & _). by rewrite Hb. Qed.

Lemma respuesta_final_text cfg (raw : str) :
  strip raw ≠ [] → respuesta_final cfg raw = strip raw.
Proof.
  intros H. unfold respuesta_final.
  destruct raw as [|c raw]; [done |].
  destruct (strip (c :: raw)) eqn:E; [done |]. simpl. by rewrite E.
Qed.

Lemma respuesta_final_default cfg (raw : str) :
  strip raw = [] → respuesta_final cfg raw = fallback cfg.
Proof.
  intros H. unfold respuesta_final.
  destruct raw as [|c raw]; simpl; [apply strip_fallback |].
  rewrite H. simpl. apply strip_fallback.
Qed.

Lemma respuesta_final_nonempty cfg (raw : str) : respuesta_final cfg raw ≠ [].
Proof.
  destruct (strip raw) eqn:E.
  - rewrite respuesta_final_default by done. apply fallback_nonempty.
  - rewrite respuesta_final_text by by rewrite E. by rewrite E.
Qed.

(** ** The loop over the events *)

Lemma collect_parts_app (ps : list Part) (acc : str) :
  collect_parts ps acc = acc ++ concat (omap text ps).
Proof.
  revert acc. induction ps as [|p ps IH]; intros acc; simpl.
  - by rewrite app_nil_r.
  - rewrite IH. destruct (text p) as [t|]; simpl; [| done].
    destruct t; simpl; [done |]. by rewrite <- (assoc_L (++)).
Qed.

Lemma collect_events_app (evs : list Event) (acc r : str) :
  collect_events evs acc = Ok r → r = acc ++ concat (text_fragments evs).
Proof.
  revert acc. induction evs as [|ev evs IH]; intros acc; simpl.
  - intros [= <-]. by rewrite app_nil_r.
  - destruct (content ev) as [c|]; simpl; [| apply IH].
    destruct (parts c) as [ps|]; simpl; [| done].
    intros H. apply IH in H. rewrite H, collect_parts_app.
    by rewrite concat_app, (assoc_L (++)).
Qed.

Lemma collect_events_iterable (evs : list Event) (acc : str) :
  forallb iterable evs = true →
  collect_events evs acc = Ok (acc ++ concat (text_fragments evs)).
Proof.
  revert acc. induction evs as [|ev evs IH]; intros acc; simpl.
  - by rewrite app_nil_r.
  - intros [Hev Hevs]%andb_prop. unfold iterable in Hev.
    destruct (content ev) as [c|]; simpl; [| by apply IH].
    destruct (parts c) as [ps|]; simpl; [| done].
    rewrite IH by done. rewrite collect_parts_app.
    by rewrite concat_app, (assoc_L (++)).
Qed.

Lemma consume_completes (o : RunOutcome) :
  completes o → consume o = Ok (concat (text_fragments (emitted o))).
Proof.
  intros [Hf He]. unfold consume.
  rewrite collect_events_iterable by done. by rewrite Hf.
Qed.

Lemma consume_fragments (o : RunOutcome) (r : str) :
  consume o = Ok r → r = concat (text_fragments (emitted o)) ∧ fault o = None.
Proof.
  unfold consume. destruct (collect_events (emitted o) []) as [a|e] eqn:E; [| done].
  destruct (fault o); [done |]. intros [= <-].
  apply collect_events_app in E. done.
Qed.

(** ** The session store *)

Section Facts.
Context {W : Type}.
Variable rt : Runtime W.
Variable cfg : Config.

Abbreviation machine := (@Machine W).

(** An id already in [sessions_store]: only [last_activity] is stamped. *)
Lemma get_or_create_session_known sid (m : machine) s :
  sessions_store m !! sid = Some s →
  get_or_create_session rt cfg sid m =
    match sessions_metadata m !! sid with
    | Some _ =>
        let '(t, w) := now rt (world m) in
        (Ok s, {| sessions_store := sessions_store m;
                  sessions_metadata := alter (Metadata.touch t) sid (sessions_metadata m);
                  world := w; runner_calls := runner_calls m |})
    | None => (Ok s, m)
    end.
Proof.
  intros Hs. unfold get_or_create_session. monad. rewrite Hs.
  destruct (sessions_metadata m !! sid) as [md|]; simpl.
  - destruct (now rt (world m)) as [t w]. simpl. by rewrite Hs.
  - by rewrite Hs.
Qed.

(** A new id for which the ADK cannot create a session: nothing is stored. *)
Lemma get_or_create_session_refused sid (m : machine) e w :
  sessions_store m !! sid = None →
  create_session rt (runner_app_name cfg) (lit "default_user") (world m) = (Raise e, w) →
  get_or_create_session rt cfg sid m =
    (Raise (RuntimeError (lit "Error al crear sesi" ++ [243%N] ++ lit "n: " ++ str_of_exn e)),
     with_world w m).
Proof.
  intros Hs Hc. unfold get_or_create_session. monad. rewrite Hs, Hc. done.
Qed.

(** A new id: the handle and a fresh metadata record are stored together. *)
Lemma get_or_create_session_new sid (m : machine) s w :
  sessions_store m !! sid = None →
  create_session rt (runner_app_name cfg) (lit "default_user") (world m) = (Ok s, w) →
  get_or_create_session rt cfg sid m =
    let '(t1, w1) := now rt w in
    let '(t2, w2) := now rt w1 in
    let '(t3, w3) := now rt w2 in
    (Ok s, {| sessions_store := <[sid := s]> (sessions_store m);
              sessions_metadata :=
                <[sid := {| Metadata.created_at := t1; Metadata.last_activity := t3;
                            Metadata.message_count := 0 |}]> (sessions_metadata m);
              world := w3; runner_calls := runner_calls m |}).
Proof.
  intros Hs Hc.
  destruct (now rt w) as [t1 w1] eqn:H1, (now rt w1) as [t2 w2] eqn:H2,
    (now rt w2) as [t3 w3] eqn:H3.
  unfold get_or_create_session. monad. oracle.
  rewrite lookup_insert_eq. oracle. rewrite lookup_insert_eq.
  by rewrite alter_insert_eq.
Qed.

(** [get_or_create_session] either returns the stored handle or raises a
    [RuntimeError]; in both cases the two dictionaries stay paired. *)
Lemma get_or_create_session_paired sid (m : machine) :
  paired m → paired (get_or_create_session rt cfg sid m).2.
Proof.
  intros Hp. destruct (sessions_store m !! sid) as [s|] eqn:Hs.
  - rewrite (get_or_create_session_known _ _ _ Hs).
    destruct (sessions_metadata m !! sid) as [md|] eqn:Hm; [| done].
    destruct (now rt (world m)) as [t w]. simpl.
    intros k. simpl. rewrite lookup_alter_is_Some. apply Hp.
  - destruct (create_session rt (runner_app_name cfg) (lit "default_user") (world m))
      as [[s|e] w] eqn:Hc.
    + rewrite (get_or_create_session_new _ _ _ _ Hs Hc).
      destruct (now rt w) as [t1 w1], (now rt w1) as [t2 w2], (now rt w2) as [t3 w3].
      intros k. simpl. rewrite !lookup_insert_is_Some. specialize (Hp k). tauto.
    + rewrite (get_or_create_session_refused _ _ _ _ Hs Hc). done.
Qed.

Lemma get_or_create_session_calls sid (m : machine) :
  runner_calls (get_or_create_session rt cfg sid m).2 = runner_calls m.
Proof.
  destruct (sessions_store m !! sid) as [s|] eqn:Hs.
  - rewrite (get_or_create_session_known _ _ _ Hs).
    destruct (sessions_metadata m !! sid); [| done].
    by destruct (now rt (world m)).
  - destruct (create_session rt (runner_app_name cfg) (lit "default_user") (world m))
      as [[s|e] w] eqn:Hc.
    + rewrite (get_or_create_session_new _ _ _ _ Hs Hc).
      by destruct (now rt w) as [t1 w1], (now rt w1) as [t2 w2], (now rt w2) as [t3 w3].
    + by rewrite (get_or_create_session_refused _ _ _ _ Hs Hc).
Qed.

(** ** The dispatch *)

Lemma send_message_to_agent_no_session sid msg hint (m m1 : machine) e :
  get_or_create_session rt cfg sid m = (Raise e, m1) →
  send_message_to_agent rt cfg sid msg hint m = (Raise e, m1).
Proof. intros Hg. unfold send_message_to_agent. monad. by rewrite Hg. Qed.

(** The run raises: the dispatch stops where [get_or_create_session] left
    the dictionaries. *)
Lemma send_message_to_agent_fault sid msg hint (m m1 : machine) session o w e :
  get_or_create_session rt cfg sid m = (Ok session, m1) →
  run rt (Session.user_id session) (Session.id session)
    (new_message (forwards session (mensaje_completo cfg msg hint))) (world m1) = (o, w) →
  consume o = Raise e →
  send_message_to_agent rt cfg sid msg hint m =
    (Raise (RuntimeError (lit "Error al ejecutar el agente: " ++ str_of_exn e)),
     {| sessions_store := sessions_store m1;
        sessions_metadata := sessions_metadata m1;
        world := w;
        runner_calls := runner_calls m1 ++ [forwards session (mensaje_completo cfg msg hint)] |}).
Proof.
  intros Hg Hr Hc. unfold send_message_to_agent, forwards in *. monad.
  rewrite Hg. oracle. by rewrite Hc.
Qed.

(** The run completes: the count is incremented, the activity stamped. *)
Lemma send_message_to_agent_completed sid msg hint (m m1 : machine) session o w raw :
  get_or_create_session rt cfg sid m = (Ok session, m1) →
  run rt (Session.user_id session) (Session.id session)
    (new_message (forwards session (mensaje_completo cfg msg hint))) (world m1) = (o, w) →
  consume o = Ok raw →
  send_message_to_agent rt cfg sid msg hint m =
    match sessions_metadata m1 !! sid with
    | Some _ =>
        let '(t, w') := now rt w in
        (Ok (respuesta_final cfg raw),
         {| sessions_store := sessions_store m1;
            sessions_metadata :=
              alter (Metadata.touch t) sid (alter Metadata.bump sid (sessions_metadata m1));
            world := w';
            runner_calls := runner_calls m1 ++ [forwards session (mensaje_completo cfg msg hint)] |})
    | None =>
        (Ok (respuesta_final cfg raw),
         {| sessions_store := sessions_store m1;
            sessions_metadata := sessions_metadata m1;
            world := w;
            runner_calls := runner_calls m1 ++ [forwards session (mensaje_completo cfg msg hint)] |})
    end.
Proof.
  intros Hg Hr Hc. destruct (now rt w) as [t w'] eqn:Hn.
  unfold send_message_to_agent, forwards in *. monad.
  rewrite Hg. oracle. rewrite Hc. simpl.
  destruct (sessions_metadata m1 !! sid); oracle; done.
Qed.

(** ** [POST /api/chat] *)

Lemma blank_test (msg : str) :
  negb (truthy msg) || negb (truthy (strip msg)) = true ↔ blank msg.
Proof.
  split.
  - intros H. apply strip_nil_blank. destruct msg as [|c msg]; [done |].
    simpl in H. by destruct (strip (c :: msg)).
  - intros H. rewrite (strip_blank _ H). apply orb_true_r.
Qed.

Lemma chat_with_agent_rejected request (m : machine) :
  blank (ChatRequest.message request) ∨
  MAX_MESSAGE_LENGTH cfg < len (ChatRequest.message request) →
  ∃ detail, chat_with_agent rt cfg request m = (Raise (HTTPException 400 detail), m).
Proof.
  intros H. unfold chat_with_agent.
  destruct (negb (truthy (ChatRequest.message request))
            || negb (truthy (strip (ChatRequest.message request)))) eqn:Hb.
  - by eexists.
  - destruct H as [H | H].
    + apply blank_test in H. congruence.
    + apply Z.ltb_lt in H. rewrite H. by eexists.
Qed.

Lemma resolve_session_id_world o (m : machine) :
  ∃ sid w, resolve_session_id rt o m = (Ok sid, with_world w m).
Proof.
  unfold resolve_session_id.
  destruct o as [[|c s]|]; monad;
    try (destruct (uuid4 rt (world m)) as [u w]; by exists u, w).
  exists (c :: s), (world m). by destruct m.
Qed.

(** A message that passes validation is dispatched, and only what
    [send_message_to_agent] does decides the answer. *)
Lemma chat_with_agent_accepted request (m m0 : machine) sid ts w1 :
  ¬ blank (ChatRequest.message request) →
  len (ChatRequest.message request) ≤ MAX_MESSAGE_LENGTH cfg →
  resolve_session_id rt (ChatRequest.session_id request) m = (Ok sid, m0) →
  now rt (world m0) = (ts, w1) →
  chat_with_agent rt cfg request m =
    match send_message_to_agent rt cfg sid (ChatRequest.message request)
            (ChatRequest.agent_id request) (with_world w1 m0) with
    | (Ok txt, m2) =>
        if truthy txt then
          let '(stamp, w3) := now rt (world m2) in
          (Ok {| ChatResponse.response := slice_to (MAX_RESPONSE_LENGTH cfg) txt;
                 ChatResponse.agent_name :=
                   match ChatRequest.agent_id request with
                   | Some a =>
                       if truthy a then
                         match AGENTS_METADATA cfg !! a with
                         | Some agent_meta => nombre agent_meta
                         | None => root_agent_name cfg
                         end
                       else root_agent_name cfg
                   | None => root_agent_name cfg
                   end;
                 ChatResponse.session_id := sid;
                 ChatResponse.timestamp := stamp |},
           with_world w3 m2)
        else
          (Raise (HTTPException 500
                    (lit "Error al generar respuesta: " ++
                     str_of_exn (ValueError (lit "La respuesta del agente lleg" ++ [243%N] ++
                                             lit " vac" ++ [237%N] ++ lit "a.")))), m2)
    | (Raise e, m2) =>
        (Raise (HTTPException 500 (lit "Error al generar respuesta: " ++ str_of_exn e)), m2)
    end.
Proof.
  intros Hb Hl Hr Hn. unfold chat_with_agent.
  destruct (negb (truthy (ChatRequest.message request))
            || negb (truthy (strip (ChatRequest.message request)))) eqn:Hb'.
  { apply blank_test in Hb'. done. }
  apply Z.ltb_ge in Hl. rewrite Hl.
  monad. rewrite Hr. simpl. rewrite Hn. simpl.
  match goal with
  | |- context [send_message_to_agent ?a ?b ?c ?d ?h ?f] =>
      destruct (send_message_to_agent a b c d h f) as [[txt|e] m2]
  end; [| done].
  destruct (truthy txt); simpl; [| done].
  by destruct (now rt (world m2)) as [stamp w3].
Qed.

(** ** The two dictionaries stay paired *)

Lemma preserves_ret {A} (a : A) : preserves (mret a : @M W A).
Proof. by intros m. Qed.

Lemma preserves_raise {A} e : preserves (raise e : @M W A).
Proof. by intros m. Qed.

Lemma preserves_gets {A} (f : machine → A) : preserves (gets f).
Proof. by intros m. Qed.

Lemma preserves_lift {A} (r : outcome A) : preserves (lift r : @M W A).
Proof. by intros m. Qed.

Lemma preserves_ask {A} (f : W → A * W) : preserves (ask f).
Proof. intros m Hm. unfold ask. by destruct (f (world m)). Qed.

Lemma preserves_call {A} (f : W → outcome A * W) : preserves (call f).
Proof. intros m Hm. unfold call. by destruct (f (world m)). Qed.

Lemma preserves_runner_run u sid c : preserves (runner_run rt u sid c).
Proof. intros m Hm. unfold runner_run. by destruct (run rt u sid c (world m)). Qed.

Lemma preserves_alter f sid : preserves (set_metadata (W:=W) (alter f sid)).
Proof. intros m Hm k. simpl. rewrite lookup_alter_is_Some. apply Hm. Qed.

Lemma preserves_bind {A B} (c : @M W A) (f : A → @M W B) :
  preserves c → (∀ a, preserves (f a)) → preserves (c ≫= f).
Proof.
  intros Hc Hf m Hm. unfold mbind, M_bind.
  specialize (Hc m Hm). destruct (c m) as [[a|e] m']; [| done].
  by apply Hf.
Qed.

Lemma preserves_try_except {A} (c : @M W A) (h : exn → @M W A) :
  preserves c → (∀ e, preserves (h e)) → preserves (try_except c h).
Proof.
  intros Hc Hh m Hm. unfold try_except.
  specialize (Hc m Hm). destruct (c m) as [[a|e] m']; [done |].
  by apply Hh.
Qed.

Lemma preserves_get_or_create_session sid : preserves (get_or_create_session rt cfg sid).
Proof. intros m. apply get_or_create_session_paired. Qed.

Create HintDb paired discriminated.
#[local] Hint Resolve preserves_ret preserves_raise preserves_gets preserves_lift
  preserves_ask preserves_call preserves_runner_run preserves_alter
  preserves_get_or_create_session : paired.

Ltac preserve :=
  repeat first
    [ progress eauto with paired
    | apply preserves_bind; [| intros ?]
    | apply preserves_try_except; [| intros ?]
    | match goal with
      | |- preserves (match ?x with _ => _ end) => destruct x
      | |- preserves (if ?x then _ else _) => destruct x
      end ].

Lemma preserves_send_message_to_agent sid msg hint :
  preserves (send_message_to_agent rt cfg sid msg hint).
Proof. unfold send_message_to_agent. preserve. Qed.

Lemma preserves_chat_with_agent request : preserves (chat_with_agent rt cfg request).
Proof.
  pose proof preserves_send_message_to_agent.
  unfold chat_with_agent, resolve_session_id. preserve.
Qed.

Lemma preserves_agent_endpoint agent request : preserves (agent_endpoint rt cfg agent request).
Proof.
  pose proof preserves_send_message_to_agent.
  unfold agent_endpoint. preserve.
Qed.

Lemma preserves_get_session_history sid : preserves (get_session_history rt sid).
Proof. unfold get_session_history. preserve. Qed.

(** What [delete_session] leaves: the id is in neither dictionary, the
    other ids are untouched. *)
Lemma delete_session_state sid (m : machine) :
  sessions_store (delete_session sid m).2 = delete sid (sessions_store m) ∧
  sessions_metadata (delete_session sid m).2 = delete sid (sessions_metadata m).
Proof.
  unfold delete_session. monad.
  destruct (sessions_store m !! sid) eqn:Hs, (sessions_metadata m !! sid) eqn:Hm;
    simpl; rewrite ?Hm; simpl; split; try done;
    symmetry; by apply delete_id.
Qed.

Lemma preserves_delete_session sid : preserves (delete_session (W:=W) sid).
Proof.
  intros m Hm k. destruct (delete_session_state sid m) as [-> ->].
  destruct (decide (k = sid)) as [-> | Hk].
  - rewrite !lookup_delete_eq. split; by intros [? ?].
  - rewrite !lookup_delete_ne by done. apply Hm.
Qed.

Lemma serve_paired r (m : machine) : paired m → paired (serve rt cfg r m).
Proof.
  intros Hm. destruct r; simpl;
    first [ by apply preserves_chat_with_agent
          | by apply preserves_agent_endpoint
          | by apply preserves_get_session_history
          | by apply preserves_delete_session ].
Qed.

Lemma reachable_paired (m : machine) : reachable rt cfg m → paired m.
Proof.
  induction 1 as [w | r m _ IH].
  - intros k. simpl. rewrite !lookup_empty. split; by intros [? ?].
  - by apply serve_paired.
Qed.

End Facts.

(** ** [GET /api/sessions/{session_id}] *)

Lemma get_session_history_unknown {W} (rt : Runtime W) sid (m : Machine) :
  sessions_store m !! sid = None →
  get_session_history rt sid m = (Ok (empty_history sid), m).
Proof. intros Hs. unfold get_session_history. monad. by rewrite Hs. Qed.

Lemma get_session_history_known {W} (rt : Runtime W) sid (m : Machine) session :
  sessions_store m !! sid = Some session →
  get_session_history rt sid m =
    let '(r, w) := get_history rt (Session.user_id session) (Session.id session) (world m) in
    match r with
    | Ok history =>
        let messages :=
          history_messages history
            (from_option Metadata.last_activity [] (sessions_metadata m !! sid)) in
        (Ok {| SessionHistoryResponse.session_id := sid;
               SessionHistoryResponse.messages := messages;
               SessionHistoryResponse.created_at :=
                 from_option Metadata.created_at [] (sessions_metadata m !! sid);
               SessionHistoryResponse.message_count := Z.of_nat (length messages) |},
         with_world w m)
    | Raise _ => (Ok (empty_history sid), with_world w m)
    end.
Proof.
  intros Hs. unfold get_session_history. monad. rewrite Hs. simpl.
  by destruct (get_history rt _ _ (world m)) as [[h|e] w].
Qed.

(** ** What a call to [get_or_create_session] does to the metadata *)

Lemma get_or_create_session_metadata {W} (rt : Runtime W) (cfg : Config)
    sid (m m1 : Machine) session :
  get_or_create_session rt cfg sid m = (Ok session, m1) →
  (∀ k, k ≠ sid →
     sessions_store m1 !! k = sessions_store m !! k ∧
     sessions_metadata m1 !! k = sessions_metadata m !! k) ∧
  match sessions_store m !! sid with
  | Some _ =>
      stored_count m1 sid = stored_count m sid ∧
      Metadata.created_at <$> sessions_metadata m1 !! sid =
      Metadata.created_at <$> sessions_metadata m !! sid
  | None => stored_count m1 sid = Some 0
  end.
Proof.
  intros Hg. unfold stored_count. destruct (sessions_store m !! sid) as [s|] eqn:Hs.
  - rewrite (get_or_create_session_known _ _ _ _ _ Hs) in Hg.
    destruct (sessions_metadata m !! sid) as [md|] eqn:Hm.
    + destruct (now rt (world m)) as [t w]. injection Hg as _ <-. simpl.
      rewrite lookup_alter_eq, Hm. split; [| done].
      intros k Hk. by rewrite lookup_alter_ne.
    + injection Hg as _ <-. by rewrite Hm.
  - destruct (create_session rt (runner_app_name cfg) (lit "default_user") (world m))
      as [[s|e] w] eqn:Hc.
    + rewrite (get_or_create_session_new _ _ _ _ _ _ Hs Hc) in Hg.
      destruct (now rt w) as [t1 w1], (now rt w1) as [t2 w2], (now rt w2) as [t3 w3].
      injection Hg as _ <-. simpl. rewrite lookup_insert_eq. split; [| done].
      intros k Hk. by rewrite !lookup_insert_ne.
    + by rewrite (get_or_create_session_refused _ _ _ _ _ _ Hs Hc) in Hg.
Qed.

Lemma consume_fault (o : RunOutcome) e0 : fault o = Some e0 → ∃ e, consume o = Raise e.
Proof.
  intros H. unfold consume. rewrite H.
  destruct (collect_events (emitted o) []); by eexists.
Qed.

(** ** What is forwarded, and what comes back *)

Lemma mensaje_completo_hinted cfg msg a agent_meta :
  a ≠ [] → AGENTS_METADATA cfg !! a = Some agent_meta →
  mensaje_completo cfg msg (Some a) =
    lit "[Dirigido a " ++ nombre agent_meta ++ lit "]: " ++ msg.
Proof. intros Ha Hm. unfold mensaje_completo. rewrite Hm. by destruct a. Qed.

Lemma mensaje_completo_raw cfg msg hint :
  hint = None ∨ hint = Some [] ∨ (∃ a, hint = Some a ∧ AGENTS_METADATA cfg !! a = None) →
  mensaje_completo cfg msg hint = msg.
Proof.
  intros [-> | [-> | (a & -> & Ha)]]; unfold mensaje_completo; try done.
  rewrite Ha. by destruct (truthy a).
Qed.

Lemma send_message_to_agent_forwards {W} (rt : Runtime W) cfg sid msg hint
    (m m1 : Machine) session :
  get_or_create_session rt cfg sid m = (Ok session, m1) →
  runner_calls (send_message_to_agent rt cfg sid msg hint m).2 =
    runner_calls m ++ [forwards session (mensaje_completo cfg msg hint)].
Proof.
  intros Hg.
  pose proof (get_or_create_session_calls rt cfg sid m) as Hcalls.
  rewrite Hg in Hcalls. simpl in Hcalls.
  destruct (run rt (Session.user_id session) (Session.id session)
              (new_message (forwards session (mensaje_completo cfg msg hint))) (world m1))
    as [o w] eqn:Hr.
  destruct (consume o) as [raw|e] eqn:Hc.
  - rewrite (send_message_to_agent_completed rt cfg sid msg hint m m1 session o w raw Hg Hr Hc).
    destruct (sessions_metadata m1 !! sid); [destruct (now rt w) |]; simpl; by rewrite Hcalls.
  - rewrite (send_message_to_agent_fault rt cfg sid msg hint m m1 session o w e Hg Hr Hc).
    simpl. by rewrite Hcalls.
Qed.

Lemma send_message_to_agent_returns {W} (rt : Runtime W) cfg sid msg hint
    (m m1 : Machine) session o w :
  get_or_create_session rt cfg sid m = (Ok session, m1) →
  run rt (Session.user_id session) (Session.id session)
    (new_message (forwards session (mensaje_completo cfg msg hint))) (world m1) = (o, w) →
  completes o →
  ∃ m', send_message_to_agent rt cfg sid msg hint m =
          (Ok (respuesta_final cfg (concat (text_fragments (emitted o)))), m').
Proof.
  intros Hg Hr Hc%consume_completes.
  rewrite (send_message_to_agent_completed rt cfg sid msg hint m m1 session o w _ Hg Hr Hc).
  destruct (sessions_metadata m1 !! sid); [destruct (now rt w) |]; by eexists.
Qed.

Lemma slice_to_prefix (n : Z) (s : str) :
  0 ≤ n → slice_to n s = take (Z.to_nat n) s.
Proof. intros H. unfold slice_to. by destruct (Z.ltb_spec n 0); [lia |]. Qed.

(** * The claims *)

(** C1 (as stated): a dispatch whose run raises leaves the session's
    metadata as it was.  It does not: [get_or_create_session] stamps
    [last_activity] before the run, here from ["T6"] to ["T8"]. *)
Lemma C1_counterexample :
  let before := sessions_metadata one_message !! lit "s1" in
  let '(r, m') :=
    send_message_to_agent scripted demo_cfg (lit "s1") (lit "otra") None one_message in
  r = Raise (RuntimeError (lit "Error al ejecutar el agente: boom")) ∧
  before = Some {| Metadata.created_at := lit "T2"; Metadata.last_activity := lit "T6";
                   Metadata.message_count := 1 |} ∧
  sessions_metadata m' !! lit "s1" =
    Some {| Metadata.created_at := lit "T2"; Metadata.last_activity := lit "T8";
            Metadata.message_count := 1 |} ∧
  sessions_metadata m' !! lit "s1" ≠ before.
Proof. vm_compute. repeat split; discriminate. Qed.

(** C1 (amended): when the capability raises during the run, the dispatch
    raises [RuntimeError("Error al ejecutar el agente: ...")] and records
    nothing after [get_or_create_session]: the dictionaries are as that call
    left them.  A session that existed keeps its [message_count] and
    [created_at], a session created by this dispatch has [message_count] 0,
    and the metadata of every other session is untouched. *)
Theorem C1_fault_is_not_counted {W} (rt : Runtime W) (cfg : Config)
    sid msg hint (m m1 : Machine) session o w e0 :
  get_or_create_session rt cfg sid m = (Ok session, m1) →
  run rt (Session.user_id session) (Session.id session)
    (new_message (forwards session (mensaje_completo cfg msg hint))) (world m1) = (o, w) →
  fault o = Some e0 →
  ∃ e m',
    send_message_to_agent rt cfg sid msg hint m =
      (Raise (RuntimeError (lit "Error al ejecutar el agente: " ++ str_of_exn e)), m') ∧
    sessions_store m' = sessions_store m1 ∧
    sessions_metadata m' = sessions_metadata m1 ∧
    (∀ k, k ≠ sid → sessions_metadata m' !! k = sessions_metadata m !! k) ∧
    match sessions_store m !! sid with
    | Some _ =>
        stored_count m' sid = stored_count m sid ∧
        Metadata.created_at <$> sessions_metadata m' !! sid =
        Metadata.created_at <$> sessions_metadata m !! sid
    | None => stored_count m' sid = Some 0
    end.
Proof.
  intros Hg Hr Hf. destruct (consume_fault o e0 Hf) as [e He].
  exists e. eexists. split.
  { by apply (send_message_to_agent_fault rt cfg sid msg hint m m1 session o w e). }
  simpl. do 2 (split; [done |]).
  destruct (get_or_create_session_metadata rt cfg sid m m1 session Hg) as [Hk Hsid].
  split; [intros k Hne; by apply Hk | exact Hsid].
Qed.

(** The run of the second message on ["s1"] raises; the count stays 1. *)
Lemma C1_witness :
  ∃ e m',
    send_message_to_agent scripted demo_cfg (lit "s1") (lit "otra") None one_message =
      (Raise (RuntimeError (lit "Error al ejecutar el agente: " ++ str_of_exn e)), m') ∧
    stored_count m' (lit "s1") = stored_count one_message (lit "s1") ∧
    stored_count one_message (lit "s1") = Some 1.
Proof.
  edestruct (C1_fault_is_not_counted scripted demo_cfg (lit "s1") (lit "otra") None one_message)
    as (e & m' & Heq & _ & _ & _ & Hcount & _).
  - vm_compute. reflexivity.
  - vm_compute. reflexivity.
  - reflexivity.
  - exists e, m'. split; [exact Heq |]. split; [exact Hcount | reflexivity].
Defined.

(** C2: a per-agent endpoint is to behave like the dispatch behind
    [POST /api/chat] called with a new session id and the endpoint's agent
    id, the rejection of an empty message, the rejection of a message
    longer than [MAX_MESSAGE_LENGTH] and the cut of the answer at
    [MAX_RESPONSE_LENGTH] included.  [chat_with_agent] makes the two checks
    and the cut; the seven per-agent handlers make none of them.  On a
    server that has served nothing, with [MAX_MESSAGE_LENGTH] 8 and
    [MAX_RESPONSE_LENGTH] 4, [chat_with_agent] answers the empty message
    and ["demasiado largo"] with 400, and ["hola"] with ["buen"];
    [chat_gente_pasto] hands all three to the agent and returns the whole
    ["buenas tardes"]. *)
Lemma C2_agent_endpoint_skips_checks :
  let pasto := Some "gente_pasto"%string in
  let whole := Ok {| AgentResponse.response := lit "buenas tardes";
                     AgentResponse.agent_name := lit "Gente Pasto";
                     AgentResponse.agent_id := lit "gente_pasto" |} in
  (chat_with_agent scripted demo_cfg (chat "" None pasto) fresh).1
    = Raise (HTTPException 400 (lit "El mensaje no puede estar vac" ++ [237%N] ++ lit "o")) ∧
  (chat_gente_pasto scripted demo_cfg {| SimpleMessageRequest.message := lit "" |} fresh).1
    = whole ∧
  (chat_with_agent scripted demo_cfg (chat "demasiado largo" None pasto) fresh).1
    = Raise (HTTPException 400 (lit "El mensaje no puede exceder 8 caracteres")) ∧
  (chat_gente_pasto scripted demo_cfg
     {| SimpleMessageRequest.message := lit "demasiado largo" |} fresh).1
    = whole ∧
  ChatResponse.response <$>
    returned (chat_with_agent scripted demo_cfg (chat "hola" None pasto) fresh).1
    = Some (lit "buen") ∧
  (chat_gente_pasto scripted demo_cfg {| SimpleMessageRequest.message := lit "hola" |} fresh).1
    = whole.
Proof. vm_compute. repeat split. Qed.



(** C4: [POST /api/chat] answers a blank message, and a message longer
    than [MAX_MESSAGE_LENGTH], with status 400 before doing anything else:
    the machine is left as it was, so no session is created and every
    stored [message_count] is unchanged. *)
Theorem C4_invalid_message_rejected {W} (rt : Runtime W) (cfg : Config)
    (request : ChatRequest.t) (m : Machine) :
  blank (ChatRequest.message request) ∨
  MAX_MESSAGE_LENGTH cfg < len (ChatRequest.message request) →
  ∃ detail m',
    chat_with_agent rt cfg request m = (Raise (HTTPException 400 detail), m') ∧
    m' = m ∧
    ∀ sid, sessions_store m' !! sid = sessions_store m !! sid ∧
           stored_count m' sid = stored_count m sid.
Proof.
  intros H. destruct (chat_with_agent_rejected rt cfg request m H) as [detail Hd].
  exists detail, m. by rewrite Hd.
Qed.

(** A message of 15 characters against a bound of 8. *)
Lemma C4_witness :
  MAX_MESSAGE_LENGTH demo_cfg < len (lit "demasiado largo") ∧
  ∃ detail,
    chat_with_agent scripted demo_cfg (chat "demasiado largo" (Some "s1"%string) None) one_message
    = (Raise (HTTPException 400 detail), one_message).
Proof.
  assert (MAX_MESSAGE_LENGTH demo_cfg < len (lit "demasiado largo")) as H by reflexivity.
  split; [exact H |].
  destruct (C4_invalid_message_rejected scripted demo_cfg
              (chat "demasiado largo" (Some "s1"%string) None) one_message (or_intror H))
    as (detail & m' & Heq & -> & _).
  by exists detail.
Defined.

(** C5: [GET /api/sessions/{session_id}] always returns a response and
    changes neither dictionary.  For an id that is not in [sessions_store],
    and for a known id whose history call raises, the response has no
    messages and [message_count] 0. *)
Theorem C5_history_never_fails {W} (rt : Runtime W) sid (m : Machine) :
  ∃ resp m',
    get_session_history rt sid m = (Ok resp, m') ∧
    sessions_store m' = sessions_store m ∧
    sessions_metadata m' = sessions_metadata m ∧
    SessionHistoryResponse.session_id resp = sid ∧
    (sessions_store m !! sid = None →
     SessionHistoryResponse.messages resp = [] ∧
     SessionHistoryResponse.message_count resp = 0) ∧
    (∀ session e w,
       sessions_store m !! sid = Some session →
       get_history rt (Session.user_id session) (Session.id session) (world m) = (Raise e, w) →
       SessionHistoryResponse.messages resp = [] ∧
       SessionHistoryResponse.message_count resp = 0).
Proof.
  destruct (sessions_store m !! sid) as [session|] eqn:Hs.
  - rewrite (get_session_history_known rt sid m session Hs).
    destruct (get_history rt _ _ (world m)) as [[h|e] w] eqn:Hh;
      do 2 eexists; (split; [reflexivity |]); simpl;
      (do 4 (split; [done |])); intros session' e' w' [= <-]; by rewrite Hh.
  - rewrite (get_session_history_unknown rt sid m Hs).
    do 2 eexists. split; [reflexivity |]. repeat split; done.
Qed.

(** A known id whose history call raises, and an unknown id. *)
Lemma C5_witness :
  SessionHistoryResponse.message_count <$>
    returned (get_session_history scripted (lit "s1") one_message).1 = Some 0 ∧
  SessionHistoryResponse.message_count <$>
    returned (get_session_history scripted (lit "s2") one_message).1 = Some 0.
Proof.
  split.
  - destruct (C5_history_never_fails scripted (lit "s1") one_message)
      as (resp & m' & Heq & _ & _ & _ & _ & Hraise).
    rewrite Heq. simpl. f_equal.
    by destruct (Hraise {| Session.id := lit "adk-1"; Session.user_id := lit "default_user" |}
                   (AdkError (lit "no history")) (tick (world one_message)) eq_refl eq_refl).
  - destruct (C5_history_never_fails scripted (lit "s2") one_message)
      as (resp & m' & Heq & _ & _ & _ & Hnone & _).
    rewrite Heq. simpl. f_equal. by destruct (Hnone eq_refl).
Defined.

(** C6 (as stated): for a known id the returned [message_count] is the
    stored one.  It is not: after one completed dispatch the stored count
    is 1, while the response counts the two messages of the turn, or
    nothing at all when the history call raises. *)
Lemma C6_counterexample :
  stored_count (after_hola (Ok (Some one_turn))) (lit "s1") = Some 1 ∧
  SessionHistoryResponse.message_count <$>
    returned (get_session_history scripted (lit "s1") (after_hola (Ok (Some one_turn)))).1
    = Some 2 ∧
  stored_count one_message (lit "s1") = Some 1 ∧
  SessionHistoryResponse.message_count <$>
    returned (get_session_history scripted (lit "s1") one_message).1
    = Some 0.
Proof. vm_compute. repeat split. Qed.

(** C6 (amended): for a known id the returned [message_count] is the
    number of messages in the response: the messages read from the
    history the ADK returns, none when the history call raises.  The stored
    [message_count] is not read. *)
Theorem C6_count_is_history_length {W} (rt : Runtime W) sid (m : Machine) session :
  sessions_store m !! sid = Some session →
  ∃ resp m',
    get_session_history rt sid m = (Ok resp, m') ∧
    SessionHistoryResponse.message_count resp =
      Z.of_nat (length (SessionHistoryResponse.messages resp)) ∧
    SessionHistoryResponse.messages resp =
      match get_history rt (Session.user_id session) (Session.id session) (world m) with
      | (Ok history, _) =>
          history_messages history
            (from_option Metadata.last_activity [] (sessions_metadata m !! sid))
      | (Raise _, _) => []
      end.
Proof.
  intros Hs. rewrite (get_session_history_known rt sid m session Hs).
  destruct (get_history rt _ _ (world m)) as [[h|e] w];
    do 2 eexists; (split; [reflexivity |]); done.
Qed.

(** One turn in the history: two messages are returned. *)
Lemma C6_witness :
  sessions_store (after_hola (Ok (Some one_turn))) !! lit "s1" =
    Some {| Session.id := lit "adk-1"; Session.user_id := lit "default_user" |} ∧
  length <$> (SessionHistoryResponse.messages <$>
    returned (get_session_history scripted (lit "s1") (after_hola (Ok (Some one_turn)))).1)
  = Some 2%nat.
Proof.
  assert (sessions_store (after_hola (Ok (Some one_turn))) !! lit "s1" =
    Some {| Session.id := lit "adk-1"; Session.user_id := lit "default_user" |}) as H
    by reflexivity.
  split; [exact H |].
  destruct (C6_count_is_history_length scripted (lit "s1") _ _ H)
    as (resp & m' & Heq & _ & Hm).
  rewrite Heq. simpl. rewrite Hm. reflexivity.
Defined.

(** C7: a message accepted by [POST /api/chat] whose session is obtained
    is forwarded to the runner exactly once.  With a hint that is given
    (not [None], not empty) and found in [AGENTS_METADATA], the text
    forwarded is ["[Dirigido a <nombre>]: "] followed by the message, and
    the response names that agent; with no hint, or a hint that is not in
    the registry, the message is forwarded as it is and the response names
    the root agent. *)
Theorem C7_hint_routing {W} (rt : Runtime W) (cfg : Config)
    (request : ChatRequest.t) (m m0 m1 : Machine) sid ts w1 session :
  ¬ blank (ChatRequest.message request) →
  len (ChatRequest.message request) ≤ MAX_MESSAGE_LENGTH cfg →
  resolve_session_id rt (ChatRequest.session_id request) m = (Ok sid, m0) →
  now rt (world m0) = (ts, w1) →
  get_or_create_session rt cfg sid (with_world w1 m0) = (Ok session, m1) →
  let result := chat_with_agent rt cfg request m in
  let message := ChatRequest.message request in
  let hint := ChatRequest.agent_id request in
  (∀ a agent_meta,
     hint = Some a → a ≠ [] → AGENTS_METADATA cfg !! a = Some agent_meta →
     runner_calls result.2 =
       runner_calls m ++
       [forwards session (lit "[Dirigido a " ++ nombre agent_meta ++ lit "]: " ++ message)] ∧
     ∀ resp, result.1 = Ok resp → ChatResponse.agent_name resp = nombre agent_meta) ∧
  (hint = None ∨ hint = Some [] ∨ (∃ a, hint = Some a ∧ AGENTS_METADATA cfg !! a = None) →
     runner_calls result.2 = runner_calls m ++ [forwards session message] ∧
     ∀ resp, result.1 = Ok resp → ChatResponse.agent_name resp = root_agent_name cfg).
Proof.
  intros Hb Hl Hr Hn Hg result message hint.
  assert (runner_calls result.2 =
          runner_calls m ++ [forwards session (mensaje_completo cfg message hint)]) as Hcalls.
  { pose proof (send_message_to_agent_forwards rt cfg sid message hint _ _ _ Hg) as Hf.
    destruct (resolve_session_id_world rt (ChatRequest.session_id request) m)
      as (sid' & w0 & Hr').
    rewrite Hr in Hr'. injection Hr' as <- Hm0.
    assert (runner_calls m0 = runner_calls m) as Hsame by by rewrite Hm0.
    simpl in Hf. rewrite Hsame in Hf.
    subst result. rewrite (chat_with_agent_accepted rt cfg request m _ sid ts w1 Hb Hl Hr Hn).
    fold message hint.
    destruct (send_message_to_agent rt cfg sid message hint _) as [[txt|e] m2];
      simpl in Hf; [| done].
    destruct (truthy txt); [| done]. by destruct (now rt (world m2)). }
  assert (∀ resp, result.1 = Ok resp →
            ChatResponse.agent_name resp =
              match hint with
              | Some a =>
                  if truthy a then
                    match AGENTS_METADATA cfg !! a with
                    | Some agent_meta => nombre agent_meta
                    | None => root_agent_name cfg
                    end
                  else root_agent_name cfg
              | None => root_agent_name cfg
              end) as Hname.
  { intros resp. subst result.
    rewrite (chat_with_agent_accepted rt cfg request m _ sid ts w1 Hb Hl Hr Hn).
    fold message hint.
    destruct (send_message_to_agent rt cfg sid message hint _) as [[txt|e] m2]; [| done].
    destruct (truthy txt); [| done]. destruct (now rt (world m2)).
    by intros [= <-]. }
  split.
  - intros a agent_meta Hh Ha Hm. split.
    + by rewrite Hcalls, Hh, (mensaje_completo_hinted cfg message a agent_meta).
    + intros resp Hresp. rewrite (Hname resp Hresp), Hh, Hm. by destruct a.
  - intros Hh. split.
    + by rewrite Hcalls, mensaje_completo_raw.
    + intros resp Hresp. rewrite (Hname resp Hresp).
      destruct Hh as [-> | [-> | (a & -> & Ha)]]; try done.
      rewrite Ha. by destruct (truthy a).
Qed.

(** A hint found in the registry. *)
Lemma C7_witness :
  runner_calls
    (chat_with_agent scripted demo_cfg
       (chat "hola" (Some "s1"%string) (Some "gente_pasto"%string)) fresh).2 =
  [forwards {| Session.id := lit "adk-1"; Session.user_id := lit "default_user" |}
     (lit "[Dirigido a Gente Pasto]: hola")].
Proof.
  edestruct (C7_hint_routing scripted demo_cfg
               (chat "hola" (Some "s1"%string) (Some "gente_pasto"%string)) fresh)
    as [Hhint _].
  - intros Hb. apply Forall_cons_1 in Hb as [Hc _]. discriminate Hc.
  - unfold len. simpl. lia.
  - reflexivity.
  - reflexivity.
  - reflexivity.
  - edestruct (Hhint (lit "gente_pasto")) as [Hcalls _].
    + reflexivity.
    + discriminate.
    + reflexivity.
    + exact Hcalls.
Defined.

(** C8: when a message accepted by [POST /api/chat] is dispatched and the
    run completes, [send_message_to_agent] returns a text that is not
    empty: the stripped concatenation of the fragments, or, when that
    concatenation is empty or whitespace only, the default message, which
    is built around the root agent's name.  [chat_with_agent] answers with
    that text cut at [MAX_RESPONSE_LENGTH], which is not empty as soon as
    the bound is positive. *)
Theorem C8_response_not_empty {W} (rt : Runtime W) (cfg : Config)
    (request : ChatRequest.t) (m m0 m1 : Machine) sid ts w1 session o w :
  ¬ blank (ChatRequest.message request) →
  len (ChatRequest.message request) ≤ MAX_MESSAGE_LENGTH cfg →
  resolve_session_id rt (ChatRequest.session_id request) m = (Ok sid, m0) →
  now rt (world m0) = (ts, w1) →
  get_or_create_session rt cfg sid (with_world w1 m0) = (Ok session, m1) →
  run rt (Session.user_id session) (Session.id session)
    (new_message (forwards session
       (mensaje_completo cfg (ChatRequest.message request) (ChatRequest.agent_id request))))
    (world m1) = (o, w) →
  completes o →
  let raw := concat (text_fragments (emitted o)) in
  ∃ txt m2,
    send_message_to_agent rt cfg sid (ChatRequest.message request)
      (ChatRequest.agent_id request) (with_world w1 m0) = (Ok txt, m2) ∧
    txt ≠ [] ∧
    (blank raw →
     txt = lit "[" ++ root_agent_name cfg ++ lit "] proces" ++ [243%N] ++
           lit " tu mensaje, pero no gener" ++ [243%N] ++ lit " una respuesta de texto.") ∧
    (¬ blank raw → txt = strip raw) ∧
    ∃ resp m',
      chat_with_agent rt cfg request m = (Ok resp, m') ∧
      ChatResponse.response resp = slice_to (MAX_RESPONSE_LENGTH cfg) txt ∧
      (0 < MAX_RESPONSE_LENGTH cfg → ChatResponse.response resp ≠ []).
Proof.
  intros Hb Hl Hr Hn Hg Hrun Hc raw.
  destruct (send_message_to_agent_returns rt cfg sid _ _ _ _ _ _ _ Hg Hrun Hc) as [m2 Hs].
  fold raw in Hs. pose proof (respuesta_final_nonempty cfg raw) as Hne.
  exists (respuesta_final cfg raw), m2. split; [exact Hs |]. split; [exact Hne |].
  split; [| split].
  - intros Hraw. apply respuesta_final_default. by apply strip_blank.
  - intros Hraw. apply respuesta_final_text. intros E. by apply Hraw, strip_nil_blank.
  - rewrite (chat_with_agent_accepted rt cfg request m _ sid ts w1 Hb Hl Hr Hn), Hs.
    destruct (respuesta_final cfg raw) as [|c txt] eqn:E; [done |]. simpl.
    destruct (now rt (world m2)) as [stamp w3].
    do 2 eexists. split; [reflexivity |]. simpl. split; [done |].
    intros Hmax. rewrite slice_to_prefix by lia.
    destruct (Z.to_nat (MAX_RESPONSE_LENGTH cfg)) eqn:En; [lia | done].
Qed.

(** A run that yields whitespace only: the default message, cut at 4. *)
Lemma C8_witness :
  ChatResponse.response <$>
    returned (chat_with_agent scripted demo_cfg (chat "hola" None None)
                (startup (script [yields [says "  "]] no_history))).1
  = Some (lit "[roo").
Proof.
  edestruct (C8_response_not_empty scripted demo_cfg (chat "hola" None None)
               (startup (script [yields [says "  "]] no_history)))
    as (txt & m2 & Hs & _ & Hdefault & _ & resp & m' & Hchat & Hresp & _).
  - intros Hb. apply Forall_cons_1 in Hb as [Hc _]. discriminate Hc.
  - unfold len. simpl. lia.
  - reflexivity.
  - reflexivity.
  - reflexivity.
  - reflexivity.
  - split; reflexivity.
  - rewrite Hchat. simpl. rewrite Hresp, Hdefault; [reflexivity |].
    repeat constructor.
Defined.

(** C9: when [send_message_to_agent] returns a text longer than
    [MAX_RESPONSE_LENGTH], the response of [POST /api/chat] is the first
    [MAX_RESPONSE_LENGTH] characters of that text. *)
Theorem C9_response_truncated {W} (rt : Runtime W) (cfg : Config)
    (request : ChatRequest.t) (m m0 m2 : Machine) sid ts w1 txt :
  ¬ blank (ChatRequest.message request) →
  len (ChatRequest.message request) ≤ MAX_MESSAGE_LENGTH cfg →
  resolve_session_id rt (ChatRequest.session_id request) m = (Ok sid, m0) →
  now rt (world m0) = (ts, w1) →
  send_message_to_agent rt cfg sid (ChatRequest.message request)
    (ChatRequest.agent_id request) (with_world w1 m0) = (Ok txt, m2) →
  0 ≤ MAX_RESPONSE_LENGTH cfg →
  MAX_RESPONSE_LENGTH cfg < len txt →
  ∃ resp m' rest,
    chat_with_agent rt cfg request m = (Ok resp, m') ∧
    ChatResponse.response resp = take (Z.to_nat (MAX_RESPONSE_LENGTH cfg)) txt ∧
    len (ChatResponse.response resp) = MAX_RESPONSE_LENGTH cfg ∧
    txt = ChatResponse.response resp ++ rest.
Proof.
  intros Hb Hl Hr Hn Hs Hmax Hlong. unfold len in Hlong.
  rewrite (chat_with_agent_accepted rt cfg request m _ sid ts w1 Hb Hl Hr Hn), Hs.
  destruct txt as [|c txt]; [simpl in Hlong; lia |]. simpl truthy. cbv iota.
  destruct (now rt (world m2)) as [stamp w3].
  eexists _, _, (drop (Z.to_nat (MAX_RESPONSE_LENGTH cfg)) (c :: txt)).
  split; [reflexivity |]. cbn [ChatResponse.response].
  rewrite slice_to_prefix by done. split; [done |]. split.
  - unfold len. rewrite length_take. lia.
  - by rewrite take_drop.
Qed.

(** A text of 13 characters against a bound of 4. *)
Lemma C9_witness :
  ChatResponse.response <$>
    returned (chat_with_agent scripted demo_cfg (chat "hola" None None) fresh).1
  = Some (lit "buen").
Proof.
  edestruct (C9_response_truncated scripted demo_cfg (chat "hola" None None) fresh)
    as (resp & m' & rest & Hchat & Hresp & _).
  - intros Hb. apply Forall_cons_1 in Hb as [Hc _]. discriminate Hc.
  - unfold len. simpl. lia.
  - reflexivity.
  - reflexivity.
  - vm_compute. reflexivity.
  - simpl. lia.
  - unfold len. simpl. lia.
  - rewrite Hchat. simpl. rewrite Hresp. reflexivity.
Defined.

(** C10: when the run completes, the text [send_message_to_agent]
    returns is the concatenation of the fragments, or the default message
    when that concatenation is blank, with the whitespace at both ends
    stripped.  It neither starts nor ends with whitespace, so it differs
    from the concatenation whenever the concatenation does. *)
Theorem C10_aggregated_text_stripped {W} (rt : Runtime W) (cfg : Config)
    sid msg hint (m m1 : Machine) session o w :
  get_or_create_session rt cfg sid m = (Ok session, m1) →
  run rt (Session.user_id session) (Session.id session)
    (new_message (forwards session (mensaje_completo cfg msg hint))) (world m1) = (o, w) →
  completes o →
  let raw := concat (text_fragments (emitted o)) in
  ∃ txt m',
    send_message_to_agent rt cfg sid msg hint m = (Ok txt, m') ∧
    (¬ blank raw ∧ txt = strip raw ∨ blank raw ∧ txt = strip (fallback cfg)) ∧
    (∀ c rest, txt = c :: rest → isspace c = false) ∧
    (∀ c, last txt = Some c → isspace c = false) ∧
    ((∃ c rest, raw = c :: rest ∧ isspace c = true) ∨
     (∃ c, last raw = Some c ∧ isspace c = true) → txt ≠ raw).
Proof.
  intros Hg Hrun Hc raw.
  destruct (send_message_to_agent_returns rt cfg sid msg hint _ _ _ _ _ Hg Hrun Hc) as [m' Hs].
  fold raw in Hs. exists (respuesta_final cfg raw), m'. split; [exact Hs |].
  assert (¬ blank raw ∧ respuesta_final cfg raw = strip raw ∨
          blank raw ∧ respuesta_final cfg raw = strip (fallback cfg)) as Hcases.
  { destruct (strip raw) as [|c rest] eqn:E.
    - right. split; [by apply strip_nil_blank |].
      by rewrite respuesta_final_default, strip_fallback.
    - left. split.
      + intros Hb%strip_blank. by rewrite Hb in E.
      + rewrite <- E. apply respuesta_final_text. by rewrite E. }
  assert (∀ c rest, respuesta_final cfg raw = c :: rest → isspace c = false) as Hhead.
  { intros c rest. destruct Hcases as [[_ ->] | [_ ->]]; apply strip_head. }
  assert (∀ c, last (respuesta_final cfg raw) = Some c → isspace c = false) as Hlast.
  { intros c. destruct Hcases as [[_ ->] | [_ ->]]; apply strip_last. }
  split; [exact Hcases |]. split; [exact Hhead |]. split; [exact Hlast |].
  intros [(c & rest & Hraw & Hsp) | (c & Hraw & Hsp)] Heq.
  - rewrite <- Heq in Hraw. apply Hhead in Hraw. congruence.
  - rewrite <- Heq in Hraw. apply Hlast in Hraw. congruence.
Qed.

(** Fragments with whitespace at both ends. *)
Lemma C10_witness :
  returned (send_message_to_agent scripted demo_cfg (lit "s1") (lit "hola") None
              (startup (script [yields [says " buenas "; says "tardes  "]] no_history))).1
  = Some (lit "buenas tardes").
Proof.
  edestruct (C10_aggregated_text_stripped scripted demo_cfg (lit "s1") (lit "hola") None
               (startup (script [yields [says " buenas "; says "tardes  "]] no_history)))
    as (txt & m' & Hs & [[_ Htxt] | [Hblank _]] & _).
  - vm_compute. reflexivity.
  - vm_compute. reflexivity.
  - split; reflexivity.
  - rewrite Hs. simpl. rewrite Htxt. reflexivity.
  - apply Forall_cons_1 in Hblank as [_ Hblank].
    apply Forall_cons_1 in Hblank as [Hc _]. discriminate Hc.
Defined.

(** * Further properties of the handlers *)

(** ** Summaries used below *)

Lemma get_or_create_session_stored {W} (rt : Runtime W) cfg sid (m m1 : Machine) s :
  get_or_create_session rt cfg sid m = (Ok s, m1) → sessions_store m1 !! sid = Some s.
Proof.
  intros Hg. destruct (sessions_store m !! sid) as [s0|] eqn:Hs.
  - rewrite (get_or_create_session_known _ _ _ _ _ Hs) in Hg.
    destruct (sessions_metadata m !! sid); [destruct (now rt (world m)) |];
      injection Hg as <- <-; done.
  - destruct (create_session rt (runner_app_name cfg) (lit "default_user") (world m))
      as [[s0|e] w] eqn:Hc.
    + rewrite (get_or_create_session_new _ _ _ _ _ _ Hs Hc) in Hg.
      destruct (now rt w) as [t1 w1], (now rt w1) as [t2 w2], (now rt w2) as [t3 w3].
      injection Hg as <- <-. simpl. apply lookup_insert_eq.
    + by rewrite (get_or_create_session_refused _ _ _ _ _ _ Hs Hc) in Hg.
Qed.

(** Whatever [get_or_create_session] does, it does to one id. *)
Lemma get_or_create_session_frame {W} (rt : Runtime W) cfg sid (m : Machine) k :
  k ≠ sid →
  sessions_store (get_or_create_session rt cfg sid m).2 !! k = sessions_store m !! k ∧
  sessions_metadata (get_or_create_session rt cfg sid m).2 !! k = sessions_metadata m !! k.
Proof.
  intros Hk. destruct (sessions_store m !! sid) as [s0|] eqn:Hs.
  - rewrite (get_or_create_session_known _ _ _ _ _ Hs).
    destruct (sessions_metadata m !! sid); [destruct (now rt (world m)) |]; simpl;
      [| done]. by rewrite lookup_alter_ne.
  - destruct (create_session rt (runner_app_name cfg) (lit "default_user") (world m))
      as [[s0|e] w] eqn:Hc.
    + rewrite (get_or_create_session_new _ _ _ _ _ _ Hs Hc).
      destruct (now rt w) as [t1 w1], (now rt w1) as [t2 w2], (now rt w2) as [t3 w3].
      simpl. by rewrite !lookup_insert_ne.
    + by rewrite (get_or_create_session_refused _ _ _ _ _ _ Hs Hc).
Qed.

(** The three ways a dispatch can go. *)
Lemma send_message_to_agent_cases {W} (rt : Runtime W) cfg sid msg hint (m : Machine) :
  (∃ e m1,
     get_or_create_session rt cfg sid m = (Raise e, m1) ∧
     send_message_to_agent rt cfg sid msg hint m = (Raise e, m1)) ∨
  (∃ session m1 o w,
     get_or_create_session rt cfg sid m = (Ok session, m1) ∧
     run rt (Session.user_id session) (Session.id session)
       (new_message (forwards session (mensaje_completo cfg msg hint))) (world m1) = (o, w) ∧
     ((∃ e, consume o = Raise e ∧
            send_message_to_agent rt cfg sid msg hint m =
              (Raise (RuntimeError (lit "Error al ejecutar el agente: " ++ str_of_exn e)),
               {| sessions_store := sessions_store m1;
                  sessions_metadata := sessions_metadata m1;
                  world := w;
                  runner_calls :=
                    runner_calls m1 ++ [forwards session (mensaje_completo cfg msg hint)] |})) ∨
      (∃ raw m', consume o = Ok raw ∧
            send_message_to_agent rt cfg sid msg hint m = (Ok (respuesta_final cfg raw), m') ∧
            sessions_store m' = sessions_store m1 ∧
            sessions_metadata m' =
              match sessions_metadata m1 !! sid with
              | Some _ =>
                  alter (Metadata.touch (now rt w).1) sid
                    (alter Metadata.bump sid (sessions_metadata m1))
              | None => sessions_metadata m1
              end ∧
            runner_calls m' =
              runner_calls m1 ++ [forwards session (mensaje_completo cfg msg hint)]))).
Proof.
  destruct (get_or_create_session rt cfg sid m) as [[session|e] m1] eqn:Hg.
  - right. destruct (run rt (Session.user_id session) (Session.id session)
      (new_message (forwards session (mensaje_completo cfg msg hint))) (world m1))
      as [o w] eqn:Hr.
    exists session, m1, o, w. do 2 (split; [done |]).
    destruct (consume o) as [raw|e] eqn:Hc.
    + right. exists raw.
      rewrite (send_message_to_agent_completed rt cfg sid msg hint m m1 session o w raw Hg Hr Hc).
      destruct (sessions_metadata m1 !! sid); [destruct (now rt w) as [tn wn] |];
        eexists; (split; [done |]); (split; [reflexivity |]); done.
    + left. exists e. split; [done |].
      by apply (send_message_to_agent_fault rt cfg sid msg hint m m1 session o w e).
  - left. exists e, m1. split; [done |]. by apply send_message_to_agent_no_session.
Qed.

Lemma send_message_to_agent_frame {W} (rt : Runtime W) cfg sid msg hint (m : Machine) k :
  k ≠ sid →
  sessions_store (send_message_to_agent rt cfg sid msg hint m).2 !! k = sessions_store m !! k ∧
  sessions_metadata (send_message_to_agent rt cfg sid msg hint m).2 !! k =
    sessions_metadata m !! k.
Proof.
  intros Hk. pose proof (get_or_create_session_frame rt cfg sid m k Hk) as Hf.
  destruct (send_message_to_agent_cases rt cfg sid msg hint m)
    as [(e & m1 & Hg & ->) | (session & m1 & o & w & Hg & Hr &
         [(e & Hc & ->) | (raw & m' & Hc & -> & Hs & Hm & _)])];
    rewrite Hg in Hf; simpl in *; try done.
  rewrite Hs, Hm. destruct Hf as [-> <-]. split; [done |].
  destruct (sessions_metadata m1 !! sid); [| done].
  by rewrite !lookup_alter_ne.
Qed.

Lemma send_message_to_agent_nonempty {W} (rt : Runtime W) cfg sid msg hint (m m' : Machine) txt :
  send_message_to_agent rt cfg sid msg hint m = (Ok txt, m') → txt ≠ [].
Proof.
  destruct (send_message_to_agent_cases rt cfg sid msg hint m)
    as [(e & m1 & Hg & ->) | (session & m1 & o & w & Hg & Hr &
         [(e & Hc & ->) | (raw & m2 & Hc & -> & _)])]; try done.
  intros [= <- _]. apply respuesta_final_nonempty.
Qed.

(** The tables after [POST /api/chat]: as before when the message is
    rejected, otherwise those the dispatch leaves. *)
Lemma chat_with_agent_tables {W} (rt : Runtime W) cfg request (m : Machine) :
  (¬ accepted cfg (ChatRequest.message request) ∧
   ∃ detail, chat_with_agent rt cfg request m = (Raise (HTTPException 400 detail), m)) ∨
  (accepted cfg (ChatRequest.message request) ∧
   ∃ sid w0 w1,
     resolve_session_id rt (ChatRequest.session_id request) m = (Ok sid, with_world w0 m) ∧
     same_tables (chat_with_agent rt cfg request m).2
       (send_message_to_agent rt cfg sid (ChatRequest.message request)
          (ChatRequest.agent_id request) (with_world w1 m)).2 ∧
     ((∃ e, (chat_with_agent rt cfg request m).1 = Raise (HTTPException 500 e) ∧
            ∃ e', (send_message_to_agent rt cfg sid (ChatRequest.message request)
                     (ChatRequest.agent_id request) (with_world w1 m)).1 = Raise e') ∨
      (∃ resp txt,
         (chat_with_agent rt cfg request m).1 = Ok resp ∧
         (send_message_to_agent rt cfg sid (ChatRequest.message request)
            (ChatRequest.agent_id request) (with_world w1 m)).1 = Ok txt ∧
         ChatResponse.response resp = slice_to (MAX_RESPONSE_LENGTH cfg) txt ∧
         ChatResponse.session_id resp = sid))).
Proof.
  unfold accepted.
  destruct (negb (truthy (ChatRequest.message request))
            || negb (truthy (strip (ChatRequest.message request)))) eqn:Hb.
  { left. apply blank_test in Hb.
    split; [tauto |]. apply chat_with_agent_rejected. by left. }
  assert (¬ blank (ChatRequest.message request)) as Hnb.
  { intros H%blank_test. congruence. }
  destruct (Z.ltb_spec (MAX_MESSAGE_LENGTH cfg) (len (ChatRequest.message request))) as [Hl|Hl].
  { left. split; [lia |]. apply chat_with_agent_rejected. by right. }
  right. split; [done |].
  destruct (resolve_session_id_world rt (ChatRequest.session_id request) m) as (sid & w0 & Hr).
  destruct (now rt w0) as [ts w1] eqn:Hn.
  exists sid, w0, w1. split; [done |].
  rewrite (chat_with_agent_accepted rt cfg request m _ sid ts w1 Hnb Hl Hr Hn).
  change (with_world w1 (with_world w0 m)) with (with_world w1 m).
  destruct (send_message_to_agent rt cfg sid _ _ (with_world w1 m)) as [[txt|e] m2] eqn:Hs.
  - pose proof (send_message_to_agent_nonempty rt cfg _ _ _ _ _ _ Hs) as Hne.
    destruct txt as [|c txt]; [done |]. simpl truthy. cbv iota.
    destruct (now rt (world m2)) as [stamp w3]. split; [done |].
    right. by eexists _, _.
  - split; [done |]. left. eexists. split; [done |]. by eexists.
Qed.

(** A per-agent endpoint, unfolded once. *)
Lemma agent_endpoint_unfold {W} (rt : Runtime W) cfg agent request (m : Machine) :
  agent_endpoint rt cfg agent request m =
    let '(sid, w) := uuid4 rt (world m) in
    match send_message_to_agent rt cfg sid (SimpleMessageRequest.message request)
            (Some agent) (with_world w m) with
    | (Ok txt, m') =>
        match AGENTS_METADATA cfg !! agent with
        | Some agent_meta =>
            (Ok {| AgentResponse.response := txt;
                   AgentResponse.agent_name := nombre agent_meta;
                   AgentResponse.agent_id := agent |}, m')
        | None =>
            (Raise (HTTPException 500 (lit "Error: " ++ str_of_exn (KeyError agent))), m')
        end
    | (Raise e, m') => (Raise (HTTPException 500 (lit "Error: " ++ str_of_exn e)), m')
    end.
Proof.
  unfold agent_endpoint. monad.
  destruct (uuid4 rt (world m)) as [sid w]. simpl.
  match goal with
  | |- context [send_message_to_agent ?a ?b ?c ?d ?h ?f] =>
      destruct (send_message_to_agent a b c d h f) as [[txt|e] m']
  end; [| done].
  by destruct (AGENTS_METADATA cfg !! agent).
Qed.

(** ** The session store *)

(** X1: asking again for a session that was just obtained returns the
    same handle without going back to the ADK: the store, the session's
    [message_count] and [created_at], the other sessions and the log of
    runs are as they were, and the world has at most seen one more reading
    of the clock. *)
Theorem X1_get_or_create_session_again {W} (rt : Runtime W) (cfg : Config)
    sid (m m1 : Machine) s :
  get_or_create_session rt cfg sid m = (Ok s, m1) →
  ∃ m2,
    get_or_create_session rt cfg sid m1 = (Ok s, m2) ∧
    sessions_store m2 = sessions_store m1 ∧
    stored_count m2 sid = stored_count m1 sid ∧
    Metadata.created_at <$> sessions_metadata m2 !! sid =
      Metadata.created_at <$> sessions_metadata m1 !! sid ∧
    (∀ k, k ≠ sid → sessions_metadata m2 !! k = sessions_metadata m1 !! k) ∧
    runner_calls m2 = runner_calls m1 ∧
    (world m2 = world m1 ∨ world m2 = (now rt (world m1)).2).
Proof.
  intros Hg%get_or_create_session_stored.
  rewrite (get_or_create_session_known rt cfg sid m1 s Hg). unfold stored_count.
  destruct (sessions_metadata m1 !! sid) as [md|] eqn:Hm.
  - destruct (now rt (world m1)) as [tn wn]. eexists. split; [reflexivity |]. simpl.
    rewrite lookup_alter_eq, Hm. repeat split; try done; [| by right].
    intros k Hk. by rewrite lookup_alter_ne.
  - exists m1. rewrite Hm. repeat split; try done. by left.
Qed.

(** A new id, asked for twice. *)
Lemma X1_witness :
  ∃ m1 m2,
    get_or_create_session scripted demo_cfg (lit "s1") fresh =
      (Ok {| Session.id := lit "adk-0"; Session.user_id := lit "default_user" |}, m1) ∧
    get_or_create_session scripted demo_cfg (lit "s1") m1 =
      (Ok {| Session.id := lit "adk-0"; Session.user_id := lit "default_user" |}, m2) ∧
    sessions_store m2 = sessions_store m1.
Proof.
  eexists.
  edestruct (X1_get_or_create_session_again scripted demo_cfg (lit "s1") fresh)
    as (m2 & Hagain & Hstore & _).
  - vm_compute. reflexivity.
  - exists m2. split; [vm_compute; reflexivity |]. split; [exact Hagain | exact Hstore].
Defined.

(** X2: a dispatch whose run completes counts exactly one message: the
    [message_count] of a session that existed goes up by one, that of a
    session created by this dispatch is 1.  The handle and [created_at] are
    those [get_or_create_session] left, and no other session's metadata
    changes. *)
Theorem X2_completed_dispatch_counts_once {W} (rt : Runtime W) (cfg : Config)
    sid msg hint (m m1 : Machine) session o w :
  get_or_create_session rt cfg sid m = (Ok session, m1) →
  run rt (Session.user_id session) (Session.id session)
    (new_message (forwards session (mensaje_completo cfg msg hint))) (world m1) = (o, w) →
  completes o →
  ∃ txt m',
    send_message_to_agent rt cfg sid msg hint m = (Ok txt, m') ∧
    stored_count m' sid =
      match sessions_store m !! sid with
      | Some _ => (λ n, n + 1) <$> stored_count m sid
      | None => Some 1
      end ∧
    sessions_store m' !! sid = Some session ∧
    Metadata.created_at <$> sessions_metadata m' !! sid =
      Metadata.created_at <$> sessions_metadata m1 !! sid ∧
    (∀ k, k ≠ sid → sessions_metadata m' !! k = sessions_metadata m !! k).
Proof.
  intros Hg Hr Hc%consume_completes.
  pose proof (get_or_create_session_stored rt cfg sid m m1 session Hg) as Hstored.
  destruct (get_or_create_session_metadata rt cfg sid m m1 session Hg) as [Hk Hsid].
  rewrite (send_message_to_agent_completed rt cfg sid msg hint m m1 session o w _ Hg Hr Hc).
  unfold stored_count in *.
  destruct (sessions_metadata m1 !! sid) as [md|] eqn:Hm.
  - destruct (now rt w) as [tn wn]. do 2 eexists. split; [reflexivity |]. simpl.
    rewrite !lookup_alter_eq, Hm. simpl. split; [| split; [done | split; [done |]]].
    + destruct (sessions_store m !! sid).
      * destruct Hsid as [Hcount _]. by rewrite <- Hcount.
      * injection Hsid as ->. done.
    + intros k Hne. rewrite !lookup_alter_ne by done. by apply Hk.
  - do 2 eexists. split; [reflexivity |]. simpl. rewrite Hm.
    split; [| split; [done | split; [done |]]].
    + destruct (sessions_store m !! sid); [| done].
      destruct Hsid as [Hcount _]. by rewrite <- Hcount.
    + intros k Hne. by apply Hk.
Qed.

(** The second message on ["s1"], with a run that completes. *)
Lemma X2_witness :
  ∃ m',
    send_message_to_agent scripted demo_cfg (lit "s1") (lit "otra") None greeted =
      (Ok (lit "tardes"), m') ∧
    stored_count greeted (lit "s1") = Some 1 ∧
    stored_count m' (lit "s1") = Some 2.
Proof.
  edestruct (X2_completed_dispatch_counts_once scripted demo_cfg (lit "s1") (lit "otra") None
               greeted) as (txt & m' & Hs & Hcount & _).
  - vm_compute. reflexivity.
  - vm_compute. reflexivity.
  - split; reflexivity.
  - exists m'. split; [| split; [reflexivity | exact Hcount]].
    rewrite Hs. f_equal. vm_compute in Hs. by injection Hs as <- _.
Defined.

(** X3: [POST /api/chat] on a given session id touches no other session:
    whatever the outcome, the handle and the metadata stored under any
    other id are as before. *)
Theorem X3_chat_leaves_other_sessions {W} (rt : Runtime W) (cfg : Config)
    (request : ChatRequest.t) (m : Machine) sid k :
  ChatRequest.session_id request = Some sid →
  sid ≠ [] →
  k ≠ sid →
  sessions_store (chat_with_agent rt cfg request m).2 !! k = sessions_store m !! k ∧
  sessions_metadata (chat_with_agent rt cfg request m).2 !! k = sessions_metadata m !! k.
Proof.
  intros Hsid Hne Hk.
  destruct (chat_with_agent_tables rt cfg request m)
    as [[_ [d ->]] | (_ & sid' & w0 & w1 & Hr & (Hs & Hm & _) & _)]; [done |].
  rewrite Hsid in Hr. unfold resolve_session_id in Hr.
  destruct sid as [|c sid]; [done |]. injection Hr as <- _.
  rewrite Hs, Hm.
  apply (send_message_to_agent_frame rt cfg (c :: sid) _ _ (with_world w1 m) k Hk).
Qed.

(** A failing message on ["s1"] while ["s2"] is unknown. *)
Lemma X3_witness :
  sessions_metadata
    (chat_with_agent scripted demo_cfg (chat "otra" (Some "s2"%string) None) one_message).2
    !! lit "s1"
  = sessions_metadata one_message !! lit "s1".
Proof.
  apply (X3_chat_leaves_other_sessions scripted demo_cfg
           (chat "otra" (Some "s2"%string) None) one_message (lit "s2") (lit "s1"));
    [reflexivity | discriminate | discriminate].
Defined.

(** [delete_session] leaves the world and the log of runs alone. *)
Lemma delete_session_world {W} (sid : str) (m : @Machine W) :
  world (delete_session sid m).2 = world m ∧
  runner_calls (delete_session sid m).2 = runner_calls m.
Proof.
  unfold delete_session. monad.
  destruct (sessions_store m !! sid), (sessions_metadata m !! sid) eqn:Hm;
    simpl; rewrite ?Hm; done.
Qed.

(** X5: [delete_session] never fails.  It removes the id from both
    dictionaries and answers "eliminada exitosamente" exactly when the id
    was in one of them; the world and the log of runs are not touched; a
    second delete of the same id changes nothing and answers
    "no encontrada". *)
Theorem X5_delete_session_twice {W} (sid : str) (m : @Machine W) :
  ∃ m',
    delete_session sid m =
      (Ok (deleted_message sid
             (bool_decide (is_Some (sessions_store m !! sid) ∨
                           is_Some (sessions_metadata m !! sid)))), m') ∧
    sessions_store m' = delete sid (sessions_store m) ∧
    sessions_metadata m' = delete sid (sessions_metadata m) ∧
    world m' = world m ∧
    runner_calls m' = runner_calls m ∧
    delete_session sid m' = (Ok (deleted_message sid false), m').
Proof.
  unfold delete_session, deleted_message. monad.
  destruct (sessions_store m !! sid) as [s|] eqn:Hs,
    (sessions_metadata m !! sid) as [md|] eqn:Hm; simpl; rewrite ?Hm; simpl;
    eexists; (split; [reflexivity |]); simpl;
    rewrite ?lookup_delete_eq; simpl; rewrite ?lookup_delete_eq;
    repeat split; try done; try (symmetry; by apply delete_id).
  all: try (rewrite Hs; simpl; rewrite ?lookup_delete_eq; done).
  all: try (rewrite Hm; simpl; done).
  rewrite Hs. simpl. rewrite Hm. by destruct m.
Qed.



(** ** Counting across requests *)

Lemma same_tables_paired {W} (m1 m2 : @Machine W) :
  same_tables m1 m2 → paired m2 → paired m1.
Proof. intros (Hs & Hm & _) Hp k. rewrite Hs, Hm. apply Hp. Qed.

Lemma same_tables_counted {W} (m1 m2 : @Machine W) :
  same_tables m1 m2 → counted m2 → counted m1.
Proof.
  intros (_ & Hm & Hc) Hp k n. unfold stored_count. rewrite Hm, Hc. apply Hp.
Qed.

(** Every handler leaves the tables as they were, or as a dispatch from
    the same tables leaves them, or is a delete. *)
Lemma serve_tables {W} (rt : Runtime W) cfg r (m : Machine) :
  same_tables (serve rt cfg r m) m ∨
  (∃ sid msg hint w,
     same_tables (serve rt cfg r m)
       (send_message_to_agent rt cfg sid msg hint (with_world w m)).2) ∨
  (∃ sid, r = DELETE_session sid).
Proof.
  assert (∀ agent q,
    ∃ sid msg hint w,
      same_tables (agent_endpoint rt cfg agent q m).2
        (send_message_to_agent rt cfg sid msg hint (with_world w m)).2) as Hagent.
  { intros agent q. rewrite agent_endpoint_unfold.
    destruct (uuid4 rt (world m)) as [sid w].
    exists sid, (SimpleMessageRequest.message q), (Some agent), w.
    destruct (send_message_to_agent rt cfg sid _ _ (with_world w m)) as [[txt|e] m'];
      [destruct (AGENTS_METADATA cfg !! agent) |]; done. }
  destruct r as [q|q|q|q|q|q|q|q|sid|sid]; simpl;
    try (right; left; apply Hagent).
  - destruct (chat_with_agent_tables rt cfg q m)
      as [[_ [d ->]] | (_ & sid & w0 & w1 & _ & Hs & _)]; [by left |].
    right. left. by eexists _, _, _, _.
  - left. destruct (sessions_store m !! sid) as [s|] eqn:Hs.
    + rewrite (get_session_history_known rt sid m s Hs).
      by destruct (get_history rt _ _ (world m)) as [[h|e] w].
    + by rewrite (get_session_history_unknown rt sid m Hs).
  - right. right. by eexists.
Qed.

(** What a dispatch does to the count of a session that has metadata. *)
Lemma send_message_to_agent_count {W} (rt : Runtime W) cfg sid' msg hint (m : Machine) sid n :
  paired m →
  stored_count m sid = Some n →
  (stored_count (send_message_to_agent rt cfg sid' msg hint m).2 sid = Some n ∨
   stored_count (send_message_to_agent rt cfg sid' msg hint m).2 sid = Some (n + 1)) ∧
  Metadata.created_at <$> sessions_metadata (send_message_to_agent rt cfg sid' msg hint m).2 !! sid
    = Metadata.created_at <$> sessions_metadata m !! sid.
Proof.
  intros Hp Hn. unfold stored_count in *.
  destruct (decide (sid = sid')) as [<- | Hne].
  2: { destruct (send_message_to_agent_frame rt cfg sid' msg hint m sid Hne) as [_ ->].
       rewrite Hn. split; [by left | done]. }
  destruct (sessions_metadata m !! sid) as [md|] eqn:Hm; [| done].
  injection Hn as Hn.
  destruct (Hp sid) as [_ [s Hs]]; [by rewrite Hm |].
  destruct (send_message_to_agent_cases rt cfg sid msg hint m)
    as [(e & m1 & Hg & ->) | (session & m1 & o & w & Hg & Hr &
         [(e & Hc & ->) | (raw & m' & Hc & -> & _ & Hm' & _)])].
  - rewrite (get_or_create_session_known rt cfg sid m s Hs), Hm in Hg.
    by destruct (now rt (world m)).
  - destruct (get_or_create_session_metadata rt cfg sid m m1 session Hg) as [_ Hsid].
    rewrite Hs in Hsid. unfold stored_count in Hsid. rewrite Hm in Hsid. simpl in *.
    destruct Hsid as [-> ->]. rewrite Hn. split; [by left | done].
  - destruct (get_or_create_session_metadata rt cfg sid m m1 session Hg) as [_ Hsid].
    rewrite Hs in Hsid. unfold stored_count in Hsid. rewrite Hm in Hsid. simpl in *.
    destruct Hsid as [Hcount Hcreated]. rewrite Hm'.
    destruct (sessions_metadata m1 !! sid) as [md1|] eqn:Hm1; [| done].
    rewrite !lookup_alter_eq, Hm1. simpl in *.
    injection Hcount as ->. injection Hcreated as ->. rewrite Hn. split; [by right | done].
Qed.

(** X4: from a reachable state, no request makes a stored [message_count]
    go down or jump: it stays, or goes up by one, and the record disappears
    only when that very session is deleted.  As long as the record is
    there, its [created_at] does not change. *)
Theorem X4_message_count_monotone {W} (rt : Runtime W) (cfg : Config)
    (r : Request) (m : Machine) sid n :
  reachable rt cfg m →
  stored_count m sid = Some n →
  (stored_count (serve rt cfg r m) sid = Some n ∨
   stored_count (serve rt cfg r m) sid = Some (n + 1) ∨
   stored_count (serve rt cfg r m) sid = None ∧ r = DELETE_session sid) ∧
  (is_Some (sessions_metadata (serve rt cfg r m) !! sid) →
   Metadata.created_at <$> sessions_metadata (serve rt cfg r m) !! sid =
   Metadata.created_at <$> sessions_metadata m !! sid).
Proof.
  intros Hp%reachable_paired Hn.
  destruct (serve_tables rt cfg r m)
    as [(_ & Hm & _) | [(sid' & msg & hint & w & (_ & Hm & _)) | [sid' ->]]].
  - unfold stored_count in *. rewrite Hm. split; [by left | done].
  - assert (paired (with_world w m)) as Hpw by done.
    destruct (send_message_to_agent_count rt cfg sid' msg hint (with_world w m) sid n Hpw Hn)
      as [Hcount Hcreated].
    unfold stored_count in *. rewrite Hm. split; [tauto | done].
  - simpl. destruct (delete_session_state sid' m) as [_ Hm].
    unfold stored_count in *. rewrite Hm.
    destruct (decide (sid = sid')) as [<- | Hne].
    + rewrite lookup_delete_eq. split; [by right; right | by intros [? ?]].
    + rewrite lookup_delete_ne by done. split; [by left | done].
Qed.

(** A failing second message leaves the count of ["s1"] at 1. *)
Lemma X4_witness :
  reachable scripted demo_cfg one_message ∧
  stored_count one_message (lit "s1") = Some 1 ∧
  stored_count
    (serve scripted demo_cfg (POST_chat (chat "otra" (Some "s1"%string) None)) one_message)
    (lit "s1") = Some 1.
Proof.
  assert (reachable scripted demo_cfg one_message) as H
    by apply reachable_serve, reachable_startup.
  split; [exact H |]. split; [reflexivity |].
  destruct (X4_message_count_monotone scripted demo_cfg
              (POST_chat (chat "otra" (Some "s1"%string) None)) one_message (lit "s1") 1 H eq_refl)
    as [[Hc | [Hc | [Hc _]]] _].
  - exact Hc.
  - vm_compute in Hc. discriminate Hc.
  - vm_compute in Hc. discriminate Hc.
Defined.

Lemma get_or_create_session_counted {W} (rt : Runtime W) cfg sid (m : Machine) :
  counted m → counted (get_or_create_session rt cfg sid m).2.
Proof.
  intros Hc k n. pose proof (get_or_create_session_calls rt cfg sid m) as Hcalls.
  rewrite Hcalls. unfold stored_count.
  destruct (decide (k = sid)) as [-> | Hk].
  2: { destruct (get_or_create_session_frame rt cfg sid m k Hk) as [_ ->]. apply Hc. }
  destruct (sessions_store m !! sid) as [s0|] eqn:Hs.
  - rewrite (get_or_create_session_known _ _ _ _ _ Hs).
    destruct (sessions_metadata m !! sid) as [md|] eqn:Hm.
    + destruct (now rt (world m)). simpl. rewrite lookup_alter_eq, Hm. simpl.
      intros [= <-]. apply (Hc sid). unfold stored_count. by rewrite Hm.
    + simpl. by rewrite Hm.
  - destruct (create_session rt (runner_app_name cfg) (lit "default_user") (world m))
      as [[s0|e] w] eqn:Hcr.
    + rewrite (get_or_create_session_new _ _ _ _ _ _ Hs Hcr).
      destruct (now rt w) as [t1 w1], (now rt w1) as [t2 w2], (now rt w2) as [t3 w3].
      simpl. rewrite lookup_insert_eq. simpl. intros [= <-]. lia.
    + rewrite (get_or_create_session_refused _ _ _ _ _ _ Hs Hcr). apply Hc.
Qed.

Lemma send_message_to_agent_counted {W} (rt : Runtime W) cfg sid msg hint (m : Machine) :
  counted m → counted (send_message_to_agent rt cfg sid msg hint m).2.
Proof.
  intros Hc. pose proof (get_or_create_session_counted rt cfg sid m Hc) as Hc1.
  destruct (send_message_to_agent_cases rt cfg sid msg hint m)
    as [(e & m1 & Hg & ->) | (session & m1 & o & w & Hg & Hr &
         [(e & Hco & ->) | (raw & m' & Hco & -> & _ & Hm' & Hcalls)])];
    rewrite Hg in Hc1; simpl in *; [done | |].
  - intros k n Hk. specialize (Hc1 k n Hk). simpl. rewrite length_app. simpl. lia.
  - intros k n. unfold stored_count. rewrite Hm', Hcalls, length_app. simpl.
    destruct (sessions_metadata m1 !! sid) as [md|] eqn:Hm1.
    + destruct (decide (k = sid)) as [-> | Hne].
      * rewrite !lookup_alter_eq, Hm1. simpl. intros [= <-].
        specialize (Hc1 sid (Metadata.message_count md)). unfold stored_count in Hc1.
        rewrite Hm1 in Hc1. specialize (Hc1 eq_refl). lia.
      * rewrite !lookup_alter_ne by done. intros Hk. specialize (Hc1 k n Hk). lia.
    + intros Hk. specialize (Hc1 k n Hk). lia.
Qed.

Lemma reachable_counted {W} (rt : Runtime W) cfg (m : Machine) :
  reachable rt cfg m → counted m.
Proof.
  induction 1 as [w | r m _ IH].
  - intros k n. unfold stored_count. simpl. by rewrite lookup_empty.
  - destruct (serve_tables rt cfg r m)
      as [Hsame | [(sid' & msg & hint & w & Hsame) | [sid' ->]]].
    + by eapply same_tables_counted.
    + eapply same_tables_counted; [exact Hsame |].
      by apply send_message_to_agent_counted.
    + simpl. intros k n. destruct (delete_session_state sid' m) as [_ Hm].
      destruct (delete_session_world sid' m) as [_ Hcalls].
      unfold stored_count. rewrite Hm, Hcalls.
      destruct (decide (k = sid')) as [-> | Hne].
      * by rewrite lookup_delete_eq.
      * rewrite lookup_delete_ne by done. apply IH.
Qed.

(** X11: at every reachable state, a stored [message_count] is never
    negative and never exceeds the number of runs started so far. *)
Theorem X11_message_count_bounded {W} (rt : Runtime W) (cfg : Config) (m : Machine) sid n :
  reachable rt cfg m →
  stored_count m sid = Some n →
  0 ≤ n ≤ Z.of_nat (length (runner_calls m)).
Proof. intros Hr Hn. by apply (reachable_counted rt cfg m Hr sid n). Qed.

(** One message counted, one run started. *)
Lemma X11_witness :
  reachable scripted demo_cfg one_message ∧
  stored_count one_message (lit "s1") = Some 1 ∧
  0 ≤ 1 ≤ Z.of_nat (length (runner_calls one_message)).
Proof.
  assert (reachable scripted demo_cfg one_message) as H
    by apply reachable_serve, reachable_startup.
  split; [exact H |]. split; [reflexivity |].
  exact (X11_message_count_bounded scripted demo_cfg one_message (lit "s1") 1 H eq_refl).
Defined.

(** After a dispatch that returned, the session is stored and has counted
    at least this message. *)
Lemma send_message_to_agent_ok_count {W} (rt : Runtime W) cfg sid msg hint (m m' : Machine) txt :
  paired m → counted m →
  send_message_to_agent rt cfg sid msg hint m = (Ok txt, m') →
  is_Some (sessions_store m' !! sid) ∧
  ∃ n, stored_count m' sid = Some n ∧ 1 ≤ n.
Proof.
  intros Hp Hc Hs.
  pose proof (get_or_create_session_paired rt cfg sid m Hp) as Hp1.
  pose proof (get_or_create_session_counted rt cfg sid m Hc) as Hc1.
  destruct (send_message_to_agent_cases rt cfg sid msg hint m)
    as [(e & m1 & Hg & Heq) | (session & m1 & o & w & Hg & Hr &
         [(e & Hco & Heq) | (raw & m2 & Hco & Heq & Hst & Hm' & _)])];
    rewrite Heq in Hs; try done.
  injection Hs as _ <-. rewrite Hg in Hp1, Hc1. simpl in *.
  pose proof (get_or_create_session_stored rt cfg sid m m1 session Hg) as Hstored.
  rewrite Hst. split; [by eexists |].
  destruct (Hp1 sid) as [[md Hmd] _]; [by eexists |].
  unfold stored_count. rewrite Hm', Hmd, !lookup_alter_eq, Hmd. simpl.
  eexists. split; [reflexivity |].
  specialize (Hc1 sid (Metadata.message_count md)). unfold stored_count in Hc1.
  rewrite Hmd in Hc1. specialize (Hc1 eq_refl). lia.
Qed.

(** X10: when [POST /api/chat] answers, the [session_id] of the answer is
    the one the request gave, or, when the request gave none or an empty
    one, the value [uuid4] returned.  From a reachable state that session
    is then in the store and its [message_count] is at least 1. *)
Theorem X10_chat_session_id {W} (rt : Runtime W) (cfg : Config)
    (request : ChatRequest.t) (m m' : Machine) resp :
  reachable rt cfg m →
  chat_with_agent rt cfg request m = (Ok resp, m') →
  (∀ s, ChatRequest.session_id request = Some s → s ≠ [] →
        ChatResponse.session_id resp = s) ∧
  (ChatRequest.session_id request = None ∨ ChatRequest.session_id request = Some [] →
   ChatResponse.session_id resp = (uuid4 rt (world m)).1) ∧
  is_Some (sessions_store m' !! ChatResponse.session_id resp) ∧
  ∃ n, stored_count m' (ChatResponse.session_id resp) = Some n ∧ 1 ≤ n.
Proof.
  intros Hreach Hchat.
  pose proof (reachable_paired rt cfg m Hreach) as Hp.
  pose proof (reachable_counted rt cfg m Hreach) as Hc.
  destruct (chat_with_agent_tables rt cfg request m)
    as [[_ [d Hd]] | (_ & sid & w0 & w1 & Hr & (Hs & Hm & _) &
         [(e & He & _) | (resp' & txt & Hresp & Hsend & _ & Hsid)])];
    rewrite Hchat in *; simpl in *; try done.
  injection Hresp as <-. rewrite Hsid.
  split; [| split].
  - intros s Hreq Hne. rewrite Hreq in Hr. unfold resolve_session_id in Hr.
    destruct s; [done |]. by injection Hr as <- _.
  - intros Hreq. unfold resolve_session_id in Hr.
    assert (ask (uuid4 rt) m = (Ok sid, with_world w0 m)) as Hu
      by (destruct Hreq as [Hreq | Hreq]; by rewrite Hreq in Hr).
    unfold ask in Hu. destruct (uuid4 rt (world m)) as [u wu].
    simpl. by injection Hu as <- _.
  - destruct (send_message_to_agent rt cfg sid _ _ (with_world w1 m)) as [r m2] eqn:Hsd.
    simpl in *. subst r.
    destruct (send_message_to_agent_ok_count rt cfg sid _ _ (with_world w1 m) m2 txt Hp Hc Hsd)
      as [Hstore Hcount].
    unfold stored_count in *. by rewrite Hs, Hm.
Qed.

(** A first message without session id. *)
Lemma X10_witness :
  reachable scripted demo_cfg fresh ∧
  ∃ resp m',
    chat_with_agent scripted demo_cfg (chat "hola" None None) fresh = (Ok resp, m') ∧
    ChatResponse.session_id resp = lit "uuid-0" ∧
    is_Some (sessions_store m' !! lit "uuid-0").
Proof.
  assert (reachable scripted demo_cfg fresh) as H by apply reachable_startup.
  split; [exact H |].
  destruct (chat_with_agent scripted demo_cfg (chat "hola" None None) fresh)
    as [[resp|e] m'] eqn:Hchat; [| vm_compute in Hchat; discriminate Hchat].
  destruct (X10_chat_session_id scripted demo_cfg (chat "hola" None None) fresh m' resp H Hchat)
    as (_ & Hminted & Hstore & _).
  exists resp, m'. split; [reflexivity |].
  rewrite (Hminted (or_introl eq_refl)) in *. split; [reflexivity | exact Hstore].
Defined.

(** ** Outcomes of [POST /api/chat] *)

(** X7: when the message is accepted, the session id is new and the ADK
    cannot create a session, [POST /api/chat] answers 500 with the reason,
    the runner is not called and neither dictionary changes. *)
Theorem X7_chat_session_fault {W} (rt : Runtime W) (cfg : Config)
    (request : ChatRequest.t) (m m0 : Machine) sid ts w1 e w2 :
  accepted cfg (ChatRequest.message request) →
  resolve_session_id rt (ChatRequest.session_id request) m = (Ok sid, m0) →
  now rt (world m0) = (ts, w1) →
  sessions_store m !! sid = None →
  create_session rt (runner_app_name cfg) (lit "default_user") w1 = (Raise e, w2) →
  ∃ m',
    chat_with_agent rt cfg request m =
      (Raise (HTTPException 500
                (lit "Error al generar respuesta: " ++
                 (lit "Error al crear sesi" ++ [243%N] ++ lit "n: " ++ str_of_exn e))), m') ∧
    same_tables m' m.
Proof.
  intros [Hb Hl] Hr Hn Hs Hc.
  destruct (resolve_session_id_world rt (ChatRequest.session_id request) m) as (sid' & w0 & Hr').
  rewrite Hr in Hr'. injection Hr' as <- ->.
  rewrite (chat_with_agent_accepted rt cfg request m _ sid ts w1 Hb Hl Hr Hn).
  change (with_world w1 (with_world w0 m)) with (with_world w1 m).
  rewrite (send_message_to_agent_no_session rt cfg sid _ _ (with_world w1 m) (with_world w2 m)
             (RuntimeError (lit "Error al crear sesi" ++ [243%N] ++ lit "n: " ++ str_of_exn e))).
  - by eexists.
  - by apply (get_or_create_session_refused rt cfg sid (with_world w1 m) e w2).
Qed.

(** The first message arrives while the ADK is down. *)
Lemma X7_witness :
  ∃ m',
    chat_with_agent scripted demo_cfg (chat "hola" (Some "s1"%string) None)
      (startup {| ticks := 0; adk_up := false; replies := []; past := no_history |}) =
      (Raise (HTTPException 500
                (lit "Error al generar respuesta: " ++
                 (lit "Error al crear sesi" ++ [243%N] ++ lit "n: " ++ lit "unavailable"))), m') ∧
    sessions_store m' = ∅.
Proof.
  edestruct (X7_chat_session_fault scripted demo_cfg (chat "hola" (Some "s1"%string) None)
               (startup {| ticks := 0; adk_up := false; replies := []; past := no_history |}))
    as (m' & Hchat & Hstore & _).
  - split; [| unfold len; simpl; lia].
    intros Hb. apply Forall_cons_1 in Hb as [Hc _]. discriminate Hc.
  - reflexivity.
  - reflexivity.
  - reflexivity.
  - reflexivity.
  - exists m'. split; [exact Hchat | exact Hstore].
Defined.

(** X8: [POST /api/chat] raises nothing but [HTTPException], with status
    400 or 500: it answers 400 exactly when the message is blank or longer
    than [MAX_MESSAGE_LENGTH], and otherwise either returns or answers
    500. *)
Theorem X8_chat_status {W} (rt : Runtime W) (cfg : Config)
    (request : ChatRequest.t) (m : Machine) :
  match (chat_with_agent rt cfg request m).1 with
  | Ok _ => accepted cfg (ChatRequest.message request)
  | Raise (HTTPException code _) =>
      code = 400 ∧ ¬ accepted cfg (ChatRequest.message request) ∨
      code = 500 ∧ accepted cfg (ChatRequest.message request)
  | Raise _ => False
  end.
Proof.
  destruct (chat_with_agent_tables rt cfg request m)
    as [[Hna [d ->]] | (Ha & sid & w0 & w1 & _ & _ &
         [(e & -> & _) | (resp & txt & -> & _)])]; simpl; tauto.
Qed.

(** X9: the text [POST /api/chat] returns is never longer than
    [MAX_RESPONSE_LENGTH]; a text within the bound is returned as
    [send_message_to_agent] produced it. *)
Theorem X9_response_within_bound {W} (rt : Runtime W) (cfg : Config)
    (request : ChatRequest.t) (m m0 m2 : Machine) sid ts w1 txt :
  accepted cfg (ChatRequest.message request) →
  resolve_session_id rt (ChatRequest.session_id request) m = (Ok sid, m0) →
  now rt (world m0) = (ts, w1) →
  send_message_to_agent rt cfg sid (ChatRequest.message request)
    (ChatRequest.agent_id request) (with_world w1 m0) = (Ok txt, m2) →
  0 ≤ MAX_RESPONSE_LENGTH cfg →
  ∃ resp m',
    chat_with_agent rt cfg request m = (Ok resp, m') ∧
    len (ChatResponse.response resp) = Z.min (len txt) (MAX_RESPONSE_LENGTH cfg) ∧
    (len txt ≤ MAX_RESPONSE_LENGTH cfg → ChatResponse.response resp = txt) ∧
    same_tables m' m2.
Proof.
  intros [Hb Hl] Hr Hn Hs Hmax.
  pose proof (send_message_to_agent_nonempty rt cfg _ _ _ _ _ _ Hs) as Hne.
  rewrite (chat_with_agent_accepted rt cfg request m _ sid ts w1 Hb Hl Hr Hn), Hs.
  destruct txt as [|c txt]; [done |]. simpl truthy. cbv iota.
  destruct (now rt (world m2)) as [stamp w3].
  do 2 eexists. split; [reflexivity |]. cbn [ChatResponse.response].
  rewrite slice_to_prefix by done. unfold len. rewrite length_take.
  split; [lia |]. split; [| done].
  intros Hshort. apply take_ge. lia.
Qed.

(** An answer of six characters against a bound of 4 096. *)
Lemma X9_witness :
  ∃ resp m',
    chat_with_agent scripted roomy_cfg (chat "hola" None None) greeted_start = (Ok resp, m') ∧
    ChatResponse.response resp = lit "buenas".
Proof.
  edestruct (X9_response_within_bound scripted roomy_cfg (chat "hola" None None) greeted_start)
    as (resp & m' & Hchat & _ & Hsame & _).
  - split; [| unfold len; simpl; lia].
    intros Hb. apply Forall_cons_1 in Hb as [Hc _]. discriminate Hc.
  - reflexivity.
  - reflexivity.
  - vm_compute. reflexivity.
  - simpl. lia.
  - exists resp, m'. split; [exact Hchat |]. apply Hsame. unfold len. simpl. lia.
Defined.

(** ** The per-agent endpoints *)

Lemma agent_endpoints_handler {W} (rt : Runtime W) cfg agent handler :
  (agent, handler) ∈ agent_endpoints rt cfg → handler = agent_endpoint rt cfg agent.
Proof.
  intros Hin. unfold agent_endpoints in Hin. set_unfold.
  destruct Hin as [H|[H|[H|[H|[H|[H|[H|[]]]]]]]]; by injection H as -> ->.
Qed.

(** X12: a per-agent endpoint raises nothing but [HTTPException] with
    status 500, whatever the message.  When it returns, the answer carries
    the endpoint's agent id, the [nombre] the registry has for it, and a
    text that is not empty. *)
Theorem X12_agent_endpoint_status {W} (rt : Runtime W) (cfg : Config)
    agent handler (request : SimpleMessageRequest.t) (m : Machine) :
  (agent, handler) ∈ agent_endpoints rt cfg →
  match (handler request m).1 with
  | Ok resp =>
      AgentResponse.agent_id resp = agent ∧
      nombre <$> AGENTS_METADATA cfg !! agent = Some (AgentResponse.agent_name resp) ∧
      AgentResponse.response resp ≠ []
  | Raise (HTTPException code _) => code = 500
  | Raise _ => False
  end.
Proof.
  intros ->%agent_endpoints_handler. rewrite agent_endpoint_unfold.
  destruct (uuid4 rt (world m)) as [sid w].
  destruct (send_message_to_agent rt cfg sid _ _ (with_world w m)) as [[txt|e] m'] eqn:Hs;
    [| done].
  apply send_message_to_agent_nonempty in Hs.
  destruct (AGENTS_METADATA cfg !! agent) as [agent_meta|]; done.
Qed.

(** [chat_gente_pasto] answers under its own id. *)
Lemma X12_witness :
  (lit "gente_pasto", chat_gente_pasto scripted demo_cfg) ∈ agent_endpoints scripted demo_cfg ∧
  ∃ resp,
    (chat_gente_pasto scripted demo_cfg {| SimpleMessageRequest.message := lit "hola" |} fresh).1
      = Ok resp ∧
    AgentResponse.agent_id resp = lit "gente_pasto".
Proof.
  assert ((lit "gente_pasto", chat_gente_pasto scripted demo_cfg)
          ∈ agent_endpoints scripted demo_cfg) as H
    by apply list_elem_of_further, list_elem_of_here.
  split; [exact H |].
  pose proof (X12_agent_endpoint_status scripted demo_cfg _ _
                {| SimpleMessageRequest.message := lit "hola" |} fresh H) as Hstatus.
  destruct (chat_gente_pasto scripted demo_cfg _ fresh) as [[resp|e] m'] eqn:Hcall;
    simpl in Hstatus.
  - exists resp. split; [reflexivity | exact (proj1 Hstatus)].
  - vm_compute in Hcall. discriminate Hcall.
Defined.

(** X13: every call to a per-agent endpoint for which the ADK creates a
    session leaves that session in the store, whether the run completes or
    not: with an id from [uuid4] that is not yet stored, the store holds one
    session more than before, and the sessions that were there are kept. *)
Theorem X13_agent_endpoint_leaves_session {W} (rt : Runtime W) (cfg : Config)
    agent handler (request : SimpleMessageRequest.t) (m : Machine) sid w s w' :
  (agent, handler) ∈ agent_endpoints rt cfg →
  uuid4 rt (world m) = (sid, w) →
  sessions_store m !! sid = None →
  create_session rt (runner_app_name cfg) (lit "default_user") w = (Ok s, w') →
  sessions_store (handler request m).2 = <[sid := s]> (sessions_store m) ∧
  size (sessions_store (handler request m).2) = S (size (sessions_store m)) ∧
  is_Some (sessions_metadata (handler request m).2 !! sid).
Proof.
  intros ->%agent_endpoints_handler Hu Hs Hc.
  assert (sessions_store (agent_endpoint rt cfg agent request m).2 =
            sessions_store (send_message_to_agent rt cfg sid
              (SimpleMessageRequest.message request) (Some agent) (with_world w m)).2 ∧
          sessions_metadata (agent_endpoint rt cfg agent request m).2 =
            sessions_metadata (send_message_to_agent rt cfg sid
              (SimpleMessageRequest.message request) (Some agent) (with_world w m)).2)
    as [-> ->].
  { rewrite agent_endpoint_unfold, Hu.
    destruct (send_message_to_agent rt cfg sid _ _ (with_world w m)) as [[txt|e] m'];
      [destruct (AGENTS_METADATA cfg !! agent) |]; done. }
  pose proof (get_or_create_session_new rt cfg sid (with_world w m) s w' Hs Hc) as Hg.
  destruct (now rt w') as [t1 w1], (now rt w1) as [t2 w2], (now rt w2) as [t3 w3].
  assert (∀ m' : @Machine W, sessions_store m' = <[sid := s]> (sessions_store m) →
                is_Some (sessions_metadata m' !! sid) →
                sessions_store m' = <[sid := s]> (sessions_store m) ∧
                size (sessions_store m') = S (size (sessions_store m)) ∧
                is_Some (sessions_metadata m' !! sid)) as Hsize.
  { intros m' Hst Hmd. rewrite Hst. split; [done |]. split; [| done].
    by apply map_size_insert_None. }
  destruct (send_message_to_agent_cases rt cfg sid (SimpleMessageRequest.message request)
              (Some agent) (with_world w m))
    as [(e & m1 & Hg' & ->) | (session & m1 & o & wr & Hg' & Hr &
         [(e & Hco & ->) | (raw & m' & Hco & -> & Hst & Hm' & _)])];
    rewrite Hg in Hg'; try done; injection Hg' as <- <-; apply Hsize; simpl.
  - done.
  - rewrite lookup_insert_eq. by eexists.
  - by rewrite Hst.
  - rewrite Hm'. simpl. rewrite lookup_insert_eq.
    rewrite !lookup_alter_is_Some, lookup_insert_eq. by eexists.
Qed.

(** One call on a machine that has served nothing. *)
Lemma X13_witness :
  (lit "gente_pasto", chat_gente_pasto scripted demo_cfg) ∈ agent_endpoints scripted demo_cfg ∧
  size (sessions_store
          (chat_gente_pasto scripted demo_cfg {| SimpleMessageRequest.message := lit "hola" |}
             fresh).2) = 1%nat.
Proof.
  assert ((lit "gente_pasto", chat_gente_pasto scripted demo_cfg)
          ∈ agent_endpoints scripted demo_cfg) as H
    by apply list_elem_of_further, list_elem_of_here.
  split; [exact H |].
  edestruct (X13_agent_endpoint_leaves_session scripted demo_cfg (lit "gente_pasto")
               (chat_gente_pasto scripted demo_cfg)
               {| SimpleMessageRequest.message := lit "hola" |} fresh) as (_ & Hsize & _).
  - exact H.
  - reflexivity.
  - reflexivity.
  - reflexivity.
  - exact Hsize.
Defined.

(** X14: an endpoint whose agent id is missing from [AGENTS_METADATA]
    still dispatches: the message goes to the runner without prefix and,
    when the run completes, the message is counted; the answer is
    nevertheless a 500 naming the missing key. *)
Theorem X14_unregistered_agent_endpoint {W} (rt : Runtime W) (cfg : Config)
    agent handler (request : SimpleMessageRequest.t) (m m1 : Machine) sid w session o wr :
  (agent, handler) ∈ agent_endpoints rt cfg →
  AGENTS_METADATA cfg !! agent = None →
  uuid4 rt (world m) = (sid, w) →
  get_or_create_session rt cfg sid (with_world w m) = (Ok session, m1) →
  run rt (Session.user_id session) (Session.id session)
    (new_message (forwards session (SimpleMessageRequest.message request))) (world m1)
    = (o, wr) →
  completes o →
  ∃ m',
    handler request m =
      (Raise (HTTPException 500 (lit "Error: " ++ (lit "'" ++ agent ++ lit "'"))), m') ∧
    runner_calls m' =
      runner_calls m ++ [forwards session (SimpleMessageRequest.message request)] ∧
    stored_count m' sid = (λ n, n + 1) <$> stored_count m1 sid.
Proof.
  intros ->%agent_endpoints_handler Hreg Hu Hg Hr Hc%consume_completes.
  assert (mensaje_completo cfg (SimpleMessageRequest.message request) (Some agent)
          = SimpleMessageRequest.message request) as Hraw.
  { unfold mensaje_completo. rewrite Hreg. by destruct (truthy agent). }
  rewrite <- Hraw in Hr.
  pose proof (get_or_create_session_calls rt cfg sid (with_world w m)) as Hcalls.
  rewrite Hg in Hcalls. simpl in Hcalls.
  rewrite agent_endpoint_unfold, Hu, Hreg.
  rewrite (send_message_to_agent_completed rt cfg sid _ _ _ m1 session o wr _ Hg Hr Hc).
  rewrite Hraw, Hcalls. unfold stored_count.
  destruct (sessions_metadata m1 !! sid) as [md|] eqn:Hm.
  - destruct (now rt wr) as [tn wn]. eexists. split; [reflexivity |]. simpl.
    split; [done |]. by rewrite !lookup_alter_eq, Hm.
  - eexists. split; [reflexivity |]. simpl. by rewrite Hm.
Qed.

(** [chat_gente_bosque] against the demo registry. *)
Lemma X14_witness :
  ∃ m',
    chat_gente_bosque scripted demo_cfg {| SimpleMessageRequest.message := lit "hola" |} fresh
    = (Raise (HTTPException 500 (lit "Error: " ++ (lit "'" ++ lit "gente_bosque" ++ lit "'"))), m') ∧
    stored_count m' (lit "uuid-0") = Some 1.
Proof.
  edestruct (X14_unregistered_agent_endpoint scripted demo_cfg (lit "gente_bosque")
               (chat_gente_bosque scripted demo_cfg)
               {| SimpleMessageRequest.message := lit "hola" |} fresh)
    as (m' & Hcall & _ & Hcount).
  - do 4 apply list_elem_of_further. apply list_elem_of_here.
  - reflexivity.
  - reflexivity.
  - vm_compute. reflexivity.
  - vm_compute. reflexivity.
  - split; reflexivity.
  - exists m'. split; [exact Hcall |].
    etransitivity; [exact Hcount | reflexivity].
Defined.

(** ** When a dispatch returns *)

Lemma consume_ok_completes (o : RunOutcome) raw : consume o = Ok raw → completes o.
Proof.
  unfold consume, completes.
  destruct (collect_events (emitted o) []) as [acc|e] eqn:Hev; [| done].
  destruct (fault o); [done |]. intros _. split; [done |].
  revert Hev. generalize (@nil N) as start. revert acc.
  induction (emitted o) as [|ev evs IH]; intros acc start; simpl; [done |].
  unfold iterable. destruct (content ev) as [c|]; simpl; [| by apply IH].
  destruct (parts c) as [ps|]; simpl; [| done]. by apply IH.
Qed.

(** X15: once the session is obtained, a dispatch returns a text exactly
    when the run completes: the capability raises nothing and no event has
    a content whose [parts] is [None].  Otherwise it raises a
    [RuntimeError], even if text had been collected before. *)
Theorem X15_dispatch_returns_iff_completes {W} (rt : Runtime W) (cfg : Config)
    sid msg hint (m m1 : Machine) session o w :
  get_or_create_session rt cfg sid m = (Ok session, m1) →
  run rt (Session.user_id session) (Session.id session)
    (new_message (forwards session (mensaje_completo cfg msg hint))) (world m1) = (o, w) →
  match (send_message_to_agent rt cfg sid msg hint m).1 with
  | Ok txt => completes o ∧ txt = respuesta_final cfg (concat (text_fragments (emitted o)))
  | Raise (RuntimeError _) => ¬ completes o
  | Raise _ => False
  end.
Proof.
  intros Hg Hr. destruct (consume o) as [raw|e] eqn:Hc.
  - pose proof (consume_ok_completes o raw Hc) as Hcomp.
    destruct (send_message_to_agent_returns rt cfg sid msg hint m m1 session o w Hg Hr Hcomp)
      as [m' ->]. done.
  - rewrite (send_message_to_agent_fault rt cfg sid msg hint m m1 session o w e Hg Hr Hc).
    simpl. intros Hcomp%consume_completes. congruence.
Qed.

(** A run that yields text and then an event that cannot be read. *)
Lemma X15_witness :
  ¬ completes (yields [says "buenas"; {| content := Some {| parts := None; role := lit "model" |} |}]).
Proof.
  eassert (Hx : _).
  { eapply (X15_dispatch_returns_iff_completes scripted demo_cfg (lit "s1") (lit "hola") None
              (startup (script
                 [yields [says "buenas";
                          {| content := Some {| parts := None; role := lit "model" |} |}]]
                 no_history))); vm_compute; reflexivity. }
  exact Hx.
Defined.

(** ** The history of a session *)

Lemma turn_messages_shape (last : str) (turn : Turn) :
  Forall (λ msg, msg_timestamp msg = last ∧
                 (msg_role msg = lit "user" ∨ msg_role msg = lit "assistant"))
    (turn_messages last turn) ∧
  length (turn_messages last turn) =
    (length (option_list (user_message turn)) + length (option_list (model_message turn)))%nat.
Proof.
  unfold turn_messages.
  destruct (user_message turn), (model_message turn); simpl; (split; [| done]);
    repeat (apply Forall_cons; split; [split; [done | first [by left | by right]] |]);
    apply Forall_nil_2.
Qed.

(** X16: for a known session whose history the ADK returns, the messages
    of the response all carry the same timestamp, the session's stored
    [last_activity], and the role ["user"] or ["assistant"]; there is one
    message per user message and one per model message of the turns, so at
    most two per turn; and [created_at] is the stored one. *)
Theorem X16_history_messages {W} (rt : Runtime W) sid (m : Machine) session md h w ts :
  sessions_store m !! sid = Some session →
  sessions_metadata m !! sid = Some md →
  get_history rt (Session.user_id session) (Session.id session) (world m) = (Ok (Some h), w) →
  turns h = Some ts →
  ∃ resp m',
    get_session_history rt sid m = (Ok resp, m') ∧
    SessionHistoryResponse.created_at resp = Metadata.created_at md ∧
    Forall (λ msg, msg_timestamp msg = Metadata.last_activity md ∧
                   (msg_role msg = lit "user" ∨ msg_role msg = lit "assistant"))
      (SessionHistoryResponse.messages resp) ∧
    length (SessionHistoryResponse.messages resp) =
      (length (omap user_message ts) + length (omap model_message ts))%nat ∧
    (length (SessionHistoryResponse.messages resp) ≤ 2 * length ts)%nat.
Proof.
  intros Hs Hm Hh Ht. rewrite (get_session_history_known rt sid m session Hs), Hh, Hm.
  do 2 eexists. split; [reflexivity |]. simpl. split; [done |].
  unfold history_messages. rewrite Ht. clear.
  induction ts as [|turn ts (IHall & IHlen & IHle)]; simpl.
  - split; [constructor | split; [done | lia]].
  - destruct (turn_messages_shape (Metadata.last_activity md) turn) as [Hall Hlen].
    split; [by apply Forall_app |].
    rewrite length_app, Hlen, IHlen.
    destruct (user_message turn), (model_message turn); simpl in *; unfold omap in *; split; lia.
Qed.

(** One turn of two messages, after one dispatch. *)
Lemma X16_witness :
  ∃ resp m',
    get_session_history scripted (lit "s1") (after_hola (Ok (Some one_turn))) = (Ok resp, m') ∧
    msg_timestamp <$> SessionHistoryResponse.messages resp = [lit "T6"; lit "T6"].
Proof.
  edestruct (X16_history_messages scripted (lit "s1") (after_hola (Ok (Some one_turn))))
    as (resp & m' & Hget & _).
  - vm_compute. reflexivity.
  - vm_compute. reflexivity.
  - vm_compute. reflexivity.
  - reflexivity.
  - exists resp, m'. split; [exact Hget |].
    vm_compute in Hget. by injection Hget as <- _.
Defined.

(** ** The read-only endpoints *)

Lemma items_cons {V} (k : str) (keys : list str) (d : gmap str V) :
  items (k :: keys) d =
    match d !! k with
    | Some v => (k, v) :: items keys d
    | None => items keys d
    end.
Proof. unfold items. simpl. by destruct (d !! k). Qed.

Lemma items_key_order {V} (keys : list str) (d : gmap str V) :
  (∀ k, k ∈ keys → is_Some (d !! k)) →
  (items keys d).*1 = keys ∧
  ∀ k v, (k, v) ∈ items keys d → d !! k = Some v.
Proof.
  induction keys as [|k keys IH]; intros Hall.
  - split; [done |]. intros k v Hin. by apply elem_of_nil in Hin.
  - destruct (Hall k) as [v Hv]; [left |]. rewrite items_cons, Hv.
    destruct IH as [IHkeys IHin]; [intros k' Hk'; apply Hall; by right |].
    split; [by rewrite fmap_cons, IHkeys |].
    intros k' v' [[= -> ->] | Hin]%elem_of_cons; [done | by apply IHin].
Qed.

Lemma replace_char_same (c : N) (s : str) : replace_char c c s = s.
Proof.
  unfold replace_char. induction s as [|d s IH]; [done |].
  rewrite fmap_cons, IH. f_equal. destruct (N.eqb_spec d c); congruence.
Qed.

(** X17: [GET /api/sessions] changes nothing and lists the metadata
    records in the order of the dictionary, one entry per record, each with
    the stored [created_at], [last_activity] and [message_count]; at a
    reachable state the ids listed are exactly those that have a handle. *)
Theorem X17_list_sessions {W} (rt : Runtime W) (cfg : Config) (keys : list str) (m : Machine) :
  reachable rt cfg m →
  key_order keys (sessions_metadata m) →
  ∃ infos,
    list_sessions keys m = (Ok infos, m) ∧
    SessionInfo.session_id <$> infos = keys ∧
    Forall (λ info,
      sessions_metadata m !! SessionInfo.session_id info =
        Some {| Metadata.created_at := SessionInfo.created_at info;
                Metadata.last_activity := SessionInfo.last_activity info;
                Metadata.message_count := SessionInfo.message_count info |}) infos ∧
    ∀ k, k ∈ SessionInfo.session_id <$> infos ↔ is_Some (sessions_store m !! k).
Proof.
  intros Hp%reachable_paired [Hnodup Hkeys].
  destruct (items_key_order keys (sessions_metadata m)) as [Hfst Hin];
    [intros k Hk; by apply Hkeys |].
  unfold list_sessions. monad. eexists. split; [reflexivity |].
  assert ((SessionInfo.session_id <$>
             ((λ '(session_id, metadata),
                 {| SessionInfo.session_id := session_id;
                    SessionInfo.created_at := Metadata.created_at metadata;
                    SessionInfo.last_activity := Metadata.last_activity metadata;
                    SessionInfo.message_count := Metadata.message_count metadata |})
              <$> items keys (sessions_metadata m))) = keys) as Hids.
  { rewrite <- Hfst at 2. rewrite <- list_fmap_compose. apply list_fmap_ext.
    by intros i [k md]. }
  split; [exact Hids |]. split.
  - apply Forall_fmap, Forall_forall. intros [k md] Hk. simpl.
    rewrite (Hin k md Hk). by destruct md.
  - intros k. rewrite Hids, Hkeys. symmetry. apply Hp.
Qed.

(** The one session of [one_message]. *)
Lemma X17_witness :
  ∃ infos,
    list_sessions [lit "s1"] one_message = (Ok infos, one_message) ∧
    SessionInfo.session_id <$> infos = [lit "s1"].
Proof.
  assert (sessions_metadata one_message =
            {[ lit "s1" := {| Metadata.created_at := lit "T2"; Metadata.last_activity := lit "T6";
                              Metadata.message_count := 1 |} ]}) as Hmeta
    by (vm_compute; reflexivity).
  edestruct (X17_list_sessions scripted demo_cfg [lit "s1"] one_message)
    as (infos & Hlist & Hids & _).
  - apply reachable_serve, reachable_startup.
  - split; [repeat constructor; by intros ?%elem_of_nil |].
    intros k. rewrite Hmeta, list_elem_of_singleton.
    destruct (decide (k = lit "s1")) as [-> | Hne].
    + rewrite lookup_singleton_eq. split; [by eexists | done].
    + rewrite lookup_singleton_ne by exact (not_eq_sym Hne). split; [intros Hk; destruct (Hne Hk) | by intros [? ?]].
  - exists infos. split; [exact Hlist | exact Hids].
Defined.

Lemma items_elem_of {V} (keys : list str) (d : gmap str V) k v :
  k ∈ keys → d !! k = Some v → (k, v) ∈ items keys d.
Proof.
  induction keys as [|k' keys IH]; intros Hin Hv; [by apply elem_of_nil in Hin |].
  rewrite items_cons. apply elem_of_cons in Hin as [-> | Hin].
  - rewrite Hv. left.
  - destruct (d !! k'); [right |]; by apply IH.
Qed.

Lemma list_agents_ids cfg (keys : list str) :
  key_order keys (AGENTS_METADATA cfg) → AgentInfo.id <$> list_agents cfg keys = keys.
Proof.
  intros [_ Hkeys].
  destruct (items_key_order keys (AGENTS_METADATA cfg)) as [Hfst _];
    [intros k Hk; by apply Hkeys |].
  unfold list_agents. rewrite <- Hfst at 2. rewrite <- list_fmap_compose.
  apply list_fmap_ext. intros i [k meta] _. simpl. apply replace_char_same.
Qed.

(** X18: [GET /api/agents] lists the registry in the order of the
    dictionary, one entry per agent.  The id of an entry is the registry
    key itself (replacing ['_'] by ['_'] changes nothing), its [nombre],
    [descripcion] and [color] are the registry's, and its [emoji] is the
    registry's or, when the agent has none, the robot. *)
Theorem X18_list_agents (cfg : Config) (keys : list str) :
  key_order keys (AGENTS_METADATA cfg) →
  AgentInfo.id <$> list_agents cfg keys = keys ∧
  Forall (λ info,
    ∃ meta,
      AGENTS_METADATA cfg !! AgentInfo.id info = Some meta ∧
      AgentInfo.nombre info = nombre meta ∧
      AgentInfo.descripcion info = descripcion meta ∧
      AgentInfo.color info = color meta ∧
      AgentInfo.emoji info = default robot (emoji meta)) (list_agents cfg keys).
Proof.
  intros Hko. split; [by apply list_agents_ids |].
  destruct Hko as [_ Hkeys].
  destruct (items_key_order keys (AGENTS_METADATA cfg)) as [_ Hin];
    [intros k Hk; by apply Hkeys |].
  unfold list_agents. apply Forall_fmap, Forall_forall. intros [k meta] Hk. simpl.
  exists meta. rewrite replace_char_same. split; [by apply Hin | done].
Qed.

Lemma two_agents_order :
  key_order [lit "gente_pasto"; lit "gente_bosque"] two_agents.
Proof.
  split.
  - apply NoDup_cons. split; [| apply NoDup_singleton].
    intros Hin%list_elem_of_singleton. discriminate Hin.
  - intros k. unfold two_agents, demo_agents.
    rewrite lookup_insert_is_Some, lookup_singleton_is_Some.
    rewrite elem_of_cons, list_elem_of_singleton. split.
    + intros [-> | ->]; [right; split; [discriminate | done] | by left].
    + intros [<- | [_ <-]]; [by right | by left].
Qed.

(** Two agents, the first without emoji. *)
Lemma X18_witness :
  AgentInfo.id <$> list_agents two_agents_cfg [lit "gente_pasto"; lit "gente_bosque"]
    = [lit "gente_pasto"; lit "gente_bosque"] ∧
  AgentInfo.emoji <$> list_agents two_agents_cfg [lit "gente_pasto"; lit "gente_bosque"]
    = [robot; [127794%N]].
Proof.
  split; [| reflexivity].
  exact (proj1 (X18_list_agents two_agents_cfg _ two_agents_order)).
Defined.

(** X19: [POST /api/select-agent] accepts exactly the ids that
    [GET /api/agents] lists.  For such an id it returns the entry's
    [nombre], [descripcion], [color] and [emoji] under the id asked for;
    for any other id it answers 404. *)
Theorem X19_select_agent (cfg : Config) (keys : list str) (request : SelectAgentRequest.t) :
  key_order keys (AGENTS_METADATA cfg) →
  match select_agent cfg keys request with
  | Ok r =>
      SelectedAgent.exitoso r = true ∧
      SelectedAgent.agente_id r = SelectAgentRequest.agent_id request ∧
      ∃ info,
        info ∈ list_agents cfg keys ∧
        AgentInfo.id info = SelectAgentRequest.agent_id request ∧
        SelectedAgent.agente r = AgentInfo.nombre info ∧
        SelectedAgent.descripcion r = AgentInfo.descripcion info ∧
        SelectedAgent.color r = AgentInfo.color info ∧
        SelectedAgent.emoji r = AgentInfo.emoji info
  | Raise (HTTPException code _) =>
      code = 404 ∧
      SelectAgentRequest.agent_id request ∉ AgentInfo.id <$> list_agents cfg keys
  | Raise _ => False
  end.
Proof.
  intros Hko. pose proof (list_agents_ids cfg keys Hko) as Hids.
  destruct Hko as [_ Hkeys]. unfold select_agent.
  destruct (AGENTS_METADATA cfg !! SelectAgentRequest.agent_id request) as [meta|] eqn:Hm.
  - do 2 (split; [done |]).
    assert (SelectAgentRequest.agent_id request ∈ keys) as Hin
      by (apply Hkeys; by eexists).
    eexists. split.
    + unfold list_agents. apply list_elem_of_fmap. eexists. split; [reflexivity |].
      by apply items_elem_of.
    + simpl. by rewrite replace_char_same.
  - split; [done |]. rewrite Hids, Hkeys, Hm. by intros [? ?].
Qed.

(** An id of the registry, and one that is not. *)
Lemma X19_witness :
  SelectedAgent.agente <$>
    returned (select_agent two_agents_cfg [lit "gente_pasto"; lit "gente_bosque"]
                {| SelectAgentRequest.agent_id := lit "gente_bosque" |})
    = Some (lit "Gente Bosque") ∧
  lit "gente_rio" ∉
    AgentInfo.id <$> list_agents two_agents_cfg [lit "gente_pasto"; lit "gente_bosque"].
Proof.
  split; [reflexivity |].
  pose proof (X19_select_agent two_agents_cfg _
                {| SelectAgentRequest.agent_id := lit "gente_rio" |} two_agents_order) as Hx.
  exact (proj2 Hx).
Defined.

(** ** What a dispatch can raise *)


(** ** What the per-agent endpoints forward *)

Lemma agent_endpoints_id {W} (rt : Runtime W) cfg agent handler :
  (agent, handler) ∈ agent_endpoints rt cfg → agent ≠ [].
Proof.
  intros Hin. unfold agent_endpoints in Hin. set_unfold.
  destruct Hin as [H|[H|[H|[H|[H|[H|[H|[]]]]]]]]; injection H as -> _;
    intros Hnil; vm_compute in Hnil; discriminate Hnil.
Qed.

(** X21: a per-agent endpoint whose agent id is in the registry forwards
    the message to the runner exactly once, as
    ["[Dirigido a <nombre>]: "] followed by the message as received, and
    its response names that agent. *)
Theorem X21_agent_endpoint_directs {W} (rt : Runtime W) (cfg : Config)
    agent handler (request : SimpleMessageRequest.t) (m m1 : Machine) sid w session agent_meta :
  (agent, handler) ∈ agent_endpoints rt cfg →
  AGENTS_METADATA cfg !! agent = Some agent_meta →
  uuid4 rt (world m) = (sid, w) →
  get_or_create_session rt cfg sid (with_world w m) = (Ok session, m1) →
  runner_calls (handler request m).2 =
    runner_calls m ++
    [forwards session
       (lit "[Dirigido a " ++ nombre agent_meta ++ lit "]: " ++
        SimpleMessageRequest.message request)] ∧
  ∀ resp, (handler request m).1 = Ok resp → AgentResponse.agent_name resp = nombre agent_meta.
Proof.
  intros Hin Hreg Hu Hg.
  pose proof (agent_endpoints_id rt cfg agent handler Hin) as Hne.
  apply agent_endpoints_handler in Hin as ->.
  pose proof (send_message_to_agent_forwards rt cfg sid
                (SimpleMessageRequest.message request) (Some agent) (with_world w m) m1
                session Hg) as Hf.
  rewrite (mensaje_completo_hinted cfg _ agent agent_meta Hne Hreg) in Hf.
  rewrite agent_endpoint_unfold, Hu, Hreg.
  destruct (send_message_to_agent rt cfg sid _ _ (with_world w m)) as [[txt|e] m'];
    simpl in *; (split; [done |]); [by intros resp [= <-] | done].
Qed.

(** [chat_gente_pasto] forwards the directed message. *)
Lemma X21_witness :
  runner_calls
    (chat_gente_pasto scripted demo_cfg {| SimpleMessageRequest.message := lit "hola" |} fresh).2
  = [forwards {| Session.id := lit "adk-1"; Session.user_id := lit "default_user" |}
       (lit "[Dirigido a Gente Pasto]: hola")].
Proof.
  edestruct (X21_agent_endpoint_directs scripted demo_cfg (lit "gente_pasto")
               (chat_gente_pasto scripted demo_cfg)
               {| SimpleMessageRequest.message := lit "hola" |} fresh) as [Hcalls _].
  - apply list_elem_of_further, list_elem_of_here.
  - reflexivity.
  - reflexivity.
  - vm_compute. reflexivity.
  - exact Hcalls.
Defined.

(** ** Handles *)

Lemma get_or_create_session_keeps_handle {W} (rt : Runtime W) cfg sid (m : Machine) k s :
  sessions_store m !! k = Some s →
  sessions_store (get_or_create_session rt cfg sid m).2 !! k = Some s.
Proof.
  intros Hk. destruct (decide (k = sid)) as [-> | Hne].
  - rewrite (get_or_create_session_known rt cfg sid m s Hk).
    by destruct (sessions_metadata m !! sid); [destruct (now rt (world m)) |].
  - destruct (get_or_create_session_frame rt cfg sid m k Hne) as [-> _]. done.
Qed.

Lemma send_message_to_agent_keeps_handle {W} (rt : Runtime W) cfg sid msg hint (m : Machine) k s :
  sessions_store m !! k = Some s →
  sessions_store (send_message_to_agent rt cfg sid msg hint m).2 !! k = Some s.
Proof.
  intros Hk. pose proof (get_or_create_session_keeps_handle rt cfg sid m k s Hk) as Hkeep.
  destruct (send_message_to_agent_cases rt cfg sid msg hint m)
    as [(e & m1 & Hg & ->) | (session & m1 & o & w & Hg & Hr &
         [(e & Hc & ->) | (raw & m' & Hc & -> & Hst & _)])];
    rewrite Hg in Hkeep; simpl in *; [done | done |].
  by rewrite Hst.
Qed.

(** X22: no request other than the DELETE of that id removes a session
    from the store or replaces its handle: sessions are never evicted, and
    an id keeps referring to the ADK session it was created with. *)
Theorem X22_handles_are_stable {W} (rt : Runtime W) (cfg : Config)
    (r : Request) (m : Machine) k s :
  sessions_store m !! k = Some s →
  sessions_store (serve rt cfg r m) !! k = Some s ∨ r = DELETE_session k.
Proof.
  intros Hk.
  destruct (serve_tables rt cfg r m)
    as [(Hs & _) | [(sid' & msg & hint & w & (Hs & _)) | [sid' ->]]].
  - left. by rewrite Hs.
  - left. rewrite Hs.
    by apply (send_message_to_agent_keeps_handle rt cfg sid' msg hint (with_world w m)).
  - destruct (decide (k = sid')) as [-> | Hne]; [by right |].
    left. simpl. destruct (delete_session_state sid' m) as [-> _].
    by rewrite lookup_delete_ne.
Qed.

(** A per-agent call does not disturb session ["s1"]. *)
Lemma X22_witness :
  sessions_store
    (serve scripted demo_cfg
       (POST_chat_gente_pasto {| SimpleMessageRequest.message := lit "hola" |}) one_message)
    !! lit "s1"
  = Some {| Session.id := lit "adk-1"; Session.user_id := lit "default_user" |}.
Proof.
  destruct (X22_handles_are_stable scripted demo_cfg
              (POST_chat_gente_pasto {| SimpleMessageRequest.message := lit "hola" |})
              one_message (lit "s1")
              {| Session.id := lit "adk-1"; Session.user_id := lit "default_user" |} eq_refl)
    as [Hkept | Hdel]; [exact Hkept | discriminate Hdel].
Defined.
